(** * Event dispatch, media extraction and webhook delivery of
      [src/pkg/whatsapp/whatsapp.go]

    A shallow embedding of the Go package [whatsapp]: the helpers on
    addresses ([ParseJID], [isGroupJid], [isFromMySelf],
    [extractPhoneNumber]), the media extraction ([ExtractMedia]), the two
    webhook forwarders ([forwardReceipt], [forwardToWebhook]) and the event
    [handler].  Go strings are byte strings and are modelled by [string];
    effects (log lines, downloads, file writes, HTTP requests, commands sent
    to the protocol client) are recorded in a trace threaded through a small
    state monad whose results may also be a Go panic or a process exit. *)

From Stdlib Require Import ZArith Ascii String List Bool Lia.
From Stdlib Require Import Numbers.DecimalString.
From stdpp Require Import base option gmap strings list fin_maps.

Local Open Scope string_scope.
Local Open Scope list_scope.
Local Open Scope Z_scope.

(* ===================================================================== *)
(** * Byte strings: the parts of Go's [strings], [regexp] and [fmt] used *)
(* ===================================================================== *)

Module GoStrings.

(** [len(s)] *)
Definition len (s : string) : Z := Z.of_nat (String.length s).

(** [strings.HasPrefix(s, prefix)] *)
Fixpoint HasPrefix (s prefix : string) : bool :=
  match prefix, s with
  | EmptyString, _ => true
  | String _ _, EmptyString => false
  | String p prefix', String c s' => Ascii.eqb c p && HasPrefix s' prefix'
  end.

(** [strings.Contains(s, substr)]: some suffix of [s] starts with [substr]. *)
Fixpoint Contains (s substr : string) : bool :=
  HasPrefix s substr ||
  match s with
  | EmptyString => false
  | String _ s' => Contains s' substr
  end.

(** [strings.ContainsRune(s, r)] for a rune below [utf8.RuneSelf]: a search
    for the byte. *)
Fixpoint ContainsRune (s : string) (r : ascii) : bool :=
  match s with
  | EmptyString => false
  | String c s' => Ascii.eqb c r || ContainsRune s' r
  end.

(** [strings.Split(s, sep)] for a separator of one byte (the only call
    passes ["/"]): the pieces between the separators, one more than the
    number of separators, in order.  [cur] is the piece being read. *)
Fixpoint Split_from (cur s : string) (sep : ascii) : list string :=
  match s with
  | EmptyString => [cur]
  | String c s' =>
      if Ascii.eqb c sep then cur :: Split_from EmptyString s' sep
      else Split_from (cur +:+ String c EmptyString) s' sep
  end.

Definition Split (s : string) (sep : ascii) : list string :=
  Split_from EmptyString s sep.

(** The class [\d] of Go's [regexp]: the ASCII digits. *)
Definition isDigit (c : ascii) : bool :=
  let n := nat_of_ascii c in (48 <=? n)%nat && (n <=? 57)%nat.

(** [regexp.MustCompile(`\d+`).FindAllString(s, -1)]: the successive,
    leftmost and longest, non-overlapping runs of digits.  [cur] is the run
    being read. *)
Fixpoint FindAllDigits_from (cur s : string) : list string :=
  match s with
  | EmptyString =>
      match cur with EmptyString => [] | _ => [cur] end
  | String c s' =>
      if isDigit c then FindAllDigits_from (cur +:+ String c EmptyString) s'
      else match cur with
           | EmptyString => FindAllDigits_from EmptyString s'
           | _ => cur :: FindAllDigits_from EmptyString s'
           end
  end.

Definition FindAllDigits (s : string) : list string :=
  FindAllDigits_from EmptyString s.

(** The verb [%d] of [fmt.Sprintf] on an integer. *)
Definition fmt_d (z : Z) : string := NilZero.string_of_int (Z.to_int z).

End GoStrings.

Import GoStrings.

(* ===================================================================== *)
(** * Data model                                                          *)
(* ===================================================================== *)

(** [[]byte] *)
Definition bytes := list Byte.byte.

(** An [error] value of a library, identified by its message ([%v]). *)
Definition error := string.

(** A Go result pair [(value, err)] of which the code reads the value only
    when [err == nil]. *)
Inductive result (A : Type) : Type :=
| Ok (a : A)
| Err (e : error).
Arguments Ok {A} a.
Arguments Err {A} e.

(** The error kinds of the package [pkg/error] that this file returns. *)
Inductive pkgError : Type :=
| WebhookError (msg : string)
| ErrInvalidJID.

(** [types.JID] of the protocol library. *)
Record JID : Type := mkJID {
  User : string;
  RawAgent : Z;
  Device : Z;
  Integrator : Z;
  Server : string
}.

(** [types.NewJID(user, server)] *)
Definition NewJID (user server : string) : JID :=
  {| User := user; RawAgent := 0; Device := 0; Integrator := 0;
     Server := server |}.

(** [types.MessageSource], embedded in message infos and receipts. *)
Record MessageSource : Type := mkMessageSource {
  Chat : JID;
  Sender : JID;
  IsFromMe : bool;
  IsGroup : bool
}.

(** The five downloadable attachments of [waE2E].  A field holds what the
    nil-safe getter of the protobuf message returns (the empty string for
    an unset field); [handle] stands for the opaque download handle (direct
    path, keys, hashes). *)
Record waImageMessage : Type := mkImage {
  img_handle : N; img_Mimetype : string; img_Caption : string }.
Record waAudioMessage : Type := mkAudio {
  aud_handle : N; aud_Mimetype : string }.
Record waVideoMessage : Type := mkVideo {
  vid_handle : N; vid_Mimetype : string; vid_Caption : string }.
Record waStickerMessage : Type := mkSticker {
  stk_handle : N; stk_Mimetype : string }.
Record waDocumentMessage : Type := mkDocument {
  doc_handle : N; doc_Mimetype : string; doc_Caption : string }.

(** A non-nil value of the interface [whatsmeow.DownloadableMessage], by
    its dynamic type; the nil interface is [None] of
    [option DownloadableMessage].  Every call site passes a pointer it has
    just tested against nil. *)
Inductive DownloadableMessage : Type :=
| ImageMessage (media : waImageMessage)
| AudioMessage (media : waAudioMessage)
| VideoMessage (media : waVideoMessage)
| StickerMessage (media : waStickerMessage)
| DocumentMessage (media : waDocumentMessage).

(** Protobuf sub-messages that are only passed through. *)
Definition Opaque := N.

Record waContextInfo : Type := mkContextInfo {
  GetStanzaID : string;
  QuotedMessage_GetConversation : string;
  GetIsForwarded : bool
}.

Record waExtendedTextMessage : Type := mkExtendedText {
  GetText : string;
  ContextInfo : option waContextInfo
}.

Record waReactionMessage : Type := mkReaction {
  rm_GetText : string;
  rm_GetKey_GetID : string
}.

(** [waE2E.Message]; the event of the protocol library always carries one. *)
Record waMessage : Type := mkMessage {
  GetConversation : string;
  GetImageMessage : option waImageMessage;
  GetStickerMessage : option waStickerMessage;
  GetVideoMessage : option waVideoMessage;
  GetAudioMessage : option waAudioMessage;
  GetDocumentMessage : option waDocumentMessage;
  ExtendedTextMessage : option waExtendedTextMessage;
  ReactionMessage : option waReactionMessage;
  GetContactMessage : option Opaque;
  GetListMessage : option Opaque;
  GetLiveLocationMessage : option Opaque;
  GetLocationMessage : option Opaque;
  GetOrderMessage : option Opaque;
  GetViewOnceMessage : option Opaque
}.

Record MessageInfo : Type := mkMessageInfo {
  Info_Source : MessageSource;
  Info_ID : string;
  Info_PushName : string;
  Info_Timestamp : Z;
  Info_Type : string;
  Info_Category : string
}.

(** [events.Message] *)
Record evMessage : Type := mkEvMessage {
  Info : MessageInfo;
  Message : waMessage;
  IsViewOnce : bool
}.

(** [events.Receipt]; [Type] is a [types.ReceiptType], a string type. *)
Record evReceipt : Type := mkEvReceipt {
  Receipt_Source : MessageSource;
  MessageIDs : list string;
  Timestamp : Z;
  Type_ : string
}.

Record evPresence : Type := mkEvPresence {
  From : JID; Unavailable : bool; LastSeen_IsZero : bool }.

Record evHistorySync : Type := mkEvHistorySync {
  Data : Opaque; Data_SyncType_String : string }.

(** The dynamic types that [handler] switches on; [OtherEvent] is any
    value of another type. *)
Inductive Event : Type :=
| DeleteForMe (MessageID : string) (SenderJID : JID)
| AppStateSyncComplete (Name : string)
| PairSuccess (ID : JID)
| LoggedOut
| Connected
| PushNameSetting
| StreamReplaced
| EvtMessage (evt : evMessage)
| EvtReceipt (evt : evReceipt)
| EvtPresence (evt : evPresence)
| EvtHistorySync (evt : evHistorySync)
| AppState
| OtherEvent.

Record ExtractedMedia : Type := mkExtractedMedia {
  MediaPath : string;
  MimeType : string;
  Caption : string
}.

Record evtReaction : Type := mkEvtReaction {
  reaction_ID : string; reaction_Message : string }.

Record evtMessage : Type := mkEvtMessage {
  message_ID : string; message_Text : string; message_RepliedId : string }.

(** The values stored in the [map[string]interface{}] bodies. *)
Inductive Value : Type :=
| VNil
| VString (s : string)
| VBool (b : bool)
| VTime (t : Z)
| VStrings (l : list string)
| VImage (m : option waImageMessage)
| VSticker (m : option waStickerMessage)
| VVideo (m : option waVideoMessage)
| VAudio (m : option waAudioMessage)
| VDocument (m : option waDocumentMessage)
| VProto (m : option Opaque)
| VEvtMessage (m : evtMessage)
| VEvtReaction (r : evtReaction)
| VExtractedMedia (m : ExtractedMedia).

(** [*http.Request] and [*http.Response], as far as this file sets or
    could read them. *)
Record Request : Type := mkRequest {
  Method : string;
  URL : string;
  Header : gmap string (list string);
  Body : bytes
}.

Record Response : Type := mkResponse { StatusCode : Z }.

(** [req.Header.Set(key, value)] *)
Definition Header_Set (req : Request) (key value : string) : Request :=
  {| Method := Method req; URL := URL req;
     Header := <[key := [value]]> (Header req); Body := Body req |}.

#[global] Instance JID_eq_dec : EqDecision JID.
Proof. solve_decision. Defined.
#[global] Instance waImageMessage_eq_dec : EqDecision waImageMessage.
Proof. solve_decision. Defined.
#[global] Instance waAudioMessage_eq_dec : EqDecision waAudioMessage.
Proof. solve_decision. Defined.
#[global] Instance waVideoMessage_eq_dec : EqDecision waVideoMessage.
Proof. solve_decision. Defined.
#[global] Instance waStickerMessage_eq_dec : EqDecision waStickerMessage.
Proof. solve_decision. Defined.
#[global] Instance waDocumentMessage_eq_dec : EqDecision waDocumentMessage.
Proof. solve_decision. Defined.
#[global] Instance DownloadableMessage_eq_dec : EqDecision DownloadableMessage.
Proof. solve_decision. Defined.

(* ===================================================================== *)
(** * Libraries, configuration, environment                               *)
(* ===================================================================== *)

(** The pure functions and constants of the imported libraries
    ([whatsmeow/types], [whatsmeow/appstate], [mime], [encoding/json],
    [net/http]).  [ExtensionsByType] and [types_ParseJID] return the Go pair
    [(value, err)]; [http_NewRequest_err] is the validation of method and
    URL done by [http.NewRequest]. *)
Class Lib : Type := {
  DefaultUserServer : string;
  JID_String : JID -> string;
  SourceString : MessageSource -> string;
  types_ParseJID : string -> JID * option error;
  ReceiptTypeRead : string;
  ReceiptTypeReadSelf : string;
  ReceiptTypeDelivered : string;
  WAPatchCriticalBlock : string;
  ExtensionsByType : string -> list string * option error;
  json_Marshal : gmap string Value -> result bytes;
  http_NewRequest_err : string -> string -> option error
}.

(** The package [config] and the store of the client [cli], as this file
    reads them. *)
Class Config : Type := {
  PathStorages : string;
  PathMedia : string;
  WhatsappAutoReplyMessage : string;
  WhatsappWebhook : string;
  cli_Store_PushName : string;
  cli_Store_ID : JID
}.

Inductive Logger : Type := waLog_Main | logrus | fmt_Printf.
Inductive LogLevel : Type := LDebug | LInfo | LWarn | LError.

(** One observable action, with what the outside world answered.  A log
    line is recorded with its format string; its rendered text is not
    modelled. *)
Inductive IOEvent : Type :=
| EvLog (logger : Logger) (level : LogLevel) (format : string)
| EvDownload (msg : DownloadableMessage) (r : result bytes)
| EvNow (unix : Z)
| EvNewUUID (uuid : string)
| EvWriteFile (name : string) (data : bytes) (perm : Z) (r : option error)
| EvHttpDo (timeoutSeconds : Z) (req : Request) (r : result Response)
| EvSendMessage (to : JID) (conversation : string)
| EvSendPresence (r : option error)
| EvBroadcast (code : string) (message : option string)
| EvOpenFile (name : string) (perm : Z) (r : option error)
| EvEncode (name : string) (data : Opaque) (r : option error)
| EvClose (name : string).

(** The trace holds the newest action first. *)
Definition Trace := list IOEvent.

(** What the outside world answers, given everything done so far. *)
Class Env : Type := {
  cli_Download_result : Trace -> DownloadableMessage -> result bytes;
  time_Now_Unix_result : Trace -> Z;
  uuid_NewString_result : Trace -> string;
  os_WriteFile_result : Trace -> string -> bytes -> option error;
  client_Do_result : Trace -> Request -> result Response;
  cli_SendPresence_result : Trace -> option error;
  os_OpenFile_result : Trace -> string -> option error;
  enc_Encode_result : Trace -> string -> Opaque -> option error
}.

(** The package-level variables and the trace. *)
Record World : Type := mkWorld {
  trace : Trace;
  historySyncID : Z;
  startupTime : Z
}.

(** * The monad of the handlers *)

Inductive Outcome (A : Type) : Type :=
| Done (a : A)
| Panic (msg : string)
| Exit (code : Z).
Arguments Done {A} a.
Arguments Panic {A} msg.
Arguments Exit {A} code.

Definition M (A : Type) : Type := World -> Outcome A * World.

Definition ret {A} (a : A) : M A := fun w => (Done a, w).

Definition bind {A B} (m : M A) (f : A -> M B) : M B :=
  fun w =>
    match m w with
    | (Done a, w') => f a w'
    | (Panic msg, w') => (Panic msg, w')
    | (Exit code, w') => (Exit code, w')
    end.

(** stdpp's [x ← m; k] and [m;; k] are read with this [bind]. *)
#[global] Instance M_ret : MRet M := @ret.
#[global] Instance M_bind : MBind M := fun A B f m => bind m f.

Definition panic {A} (msg : string) : M A := fun w => (Panic msg, w).

(** [os.Exit(code)] *)
Definition os_Exit {A} (code : Z) : M A := fun w => (Exit code, w).

Definition emit (e : IOEvent) : World -> World :=
  fun w => {| trace := e :: trace w; historySyncID := historySyncID w;
              startupTime := startupTime w |}.

Definition io (e : IOEvent) : M unit := fun w => (Done tt, emit e w).

(** [int32] wrap-around. *)
Definition wrap32 (z : Z) : Z := (z + 2^31) mod 2^32 - 2^31.

(** [atomic.AddInt32(&historySyncID, delta)]: one indivisible step that
    returns the new value. *)
Definition atomic_AddInt32_historySyncID (delta : Z) : M Z :=
  fun w =>
    let new := wrap32 (historySyncID w + delta) in
    (Done new, {| trace := trace w; historySyncID := new;
                  startupTime := startupTime w |}).

Definition get_startupTime : M Z := fun w => (Done (startupTime w), w).

Section Primitives.
Context {E : Env}.

Definition log_ (l : Logger) (lv : LogLevel) (format : string) : M unit :=
  io (EvLog l lv format).

Definition cli_Download (msg : DownloadableMessage) : M (result bytes) :=
  fun w => let r := cli_Download_result (trace w) msg in
           (Done r, emit (EvDownload msg r) w).

Definition time_Now_Unix : M Z :=
  fun w => let t := time_Now_Unix_result (trace w) in
           (Done t, emit (EvNow t) w).

Definition uuid_NewString : M string :=
  fun w => let u := uuid_NewString_result (trace w) in
           (Done u, emit (EvNewUUID u) w).

Definition os_WriteFile (name : string) (data : bytes) (perm : Z)
  : M (option error) :=
  fun w => let r := os_WriteFile_result (trace w) name data in
           (Done r, emit (EvWriteFile name data perm r) w).

Definition client_Do (timeoutSeconds : Z) (req : Request)
  : M (result Response) :=
  fun w => let r := client_Do_result (trace w) req in
           (Done r, emit (EvHttpDo timeoutSeconds req r) w).

Definition cli_SendMessage (to : JID) (conversation : string) : M unit :=
  io (EvSendMessage to conversation).

Definition cli_SendPresence : M (option error) :=
  fun w => let r := cli_SendPresence_result (trace w) in
           (Done r, emit (EvSendPresence r) w).

Definition websocket_Broadcast (code : string) (message : option string)
  : M unit :=
  io (EvBroadcast code message).

Definition os_OpenFile (name : string) (perm : Z) : M (option error) :=
  fun w => let r := os_OpenFile_result (trace w) name in
           (Done r, emit (EvOpenFile name perm r) w).

Definition enc_Encode (name : string) (data : Opaque) : M (option error) :=
  fun w => let r := enc_Encode_result (trace w) name data in
           (Done r, emit (EvEncode name data r) w).

Definition file_Close (name : string) : M unit := io (EvClose name).

End Primitives.

(* ===================================================================== *)
(** * The functions of [whatsapp.go]                                      *)
(* ===================================================================== *)

Section Whatsapp.
Context {L : Lib} {C : Config} {E : Env}.

(** [ParseJID] (lines 100-117).  [arg[0]] on the empty string is a run-time
    panic. *)
Definition ParseJID (arg : string) : M (JID * option pkgError) :=
  match arg with
  | EmptyString => panic "index out of range [0] with length 0"
  | String c rest =>
      let arg := if Ascii.eqb c "+" then rest else arg in
      if negb (ContainsRune arg "@") then
        mret (NewJID arg DefaultUserServer, None)
      else
        let '(recipient, err) := types_ParseJID arg in
        match err with
        | Some _ =>
            log_ fmt_Printf LInfo "invalid JID %s: %v";;
            mret (recipient, Some ErrInvalidJID)
        | None =>
            if String.eqb (User recipient) "" then
              log_ fmt_Printf LInfo "invalid JID %v: no server specified";;
              mret (recipient, Some ErrInvalidJID)
            else mret (recipient, None)
        end
  end.

(** [isGroupJid] (lines 451-453) *)
Definition isGroupJid (jid : string) : bool := Contains jid "@g.us".

(** [extractPhoneNumber] (lines 461-471) *)
Definition extractPhoneNumber (jid : string) : string :=
  let matches := FindAllDigits jid in
  match matches with
  | m0 :: _ => m0
  | [] => ""
  end.

(** [isFromMySelf] (lines 456-458) *)
Definition isFromMySelf (jid : string) : bool :=
  String.eqb (extractPhoneNumber jid)
             (extractPhoneNumber (JID_String cli_Store_ID)).

(** The extension chosen by [ExtractMedia] (lines 501-506). *)
Definition mediaExtension (mimeType : string) : string :=
  let '(ext, err) := ExtensionsByType mimeType in
  if bool_decide (err <> None) && (0 <? Z.of_nat (length ext)) then
    hd "" ext
  else
    let parts := Split mimeType "/" in
    if 1 <? Z.of_nat (length parts) then "." +:+ List.last parts ""
    else "".

(** [ExtractMedia] (lines 474-514) *)
Definition ExtractMedia (storageLocation : string)
    (mediaFile : option DownloadableMessage)
  : M (ExtractedMedia * option error) :=
  let extractedMedia := mkExtractedMedia "" "" "" in
  match mediaFile with
  | None =>
      log_ logrus LInfo "Skip download because data is nil";;
      mret (extractedMedia, None)
  | Some mediaFile =>
      r ← cli_Download mediaFile;
      match r with
      | Err err => mret (extractedMedia, Some err)
      | Ok data =>
          let extractedMedia :=
            match mediaFile with
            | ImageMessage media =>
                mkExtractedMedia "" (img_Mimetype media) (img_Caption media)
            | AudioMessage media =>
                mkExtractedMedia "" (aud_Mimetype media) ""
            | VideoMessage media =>
                mkExtractedMedia "" (vid_Mimetype media) (vid_Caption media)
            | StickerMessage media =>
                mkExtractedMedia "" (stk_Mimetype media) ""
            | DocumentMessage media =>
                mkExtractedMedia "" (doc_Mimetype media) (doc_Caption media)
            end in
          let extension := mediaExtension (MimeType extractedMedia) in
          now ← time_Now_Unix;
          uuid ← uuid_NewString;
          let extractedMedia :=
            mkExtractedMedia
              (storageLocation +:+ "/" +:+ fmt_d now +:+ "-" +:+ uuid
                 +:+ extension)
              (MimeType extractedMedia) (Caption extractedMedia) in
          err ← os_WriteFile (MediaPath extractedMedia) data 384;
          match err with
          | Some err => mret (extractedMedia, Some err)
          | None => mret (extractedMedia, None)
          end
      end
  end.

(** The end of both forwarders (lines 326-339 and 434-447, the same
    statements): marshal, build the request, send it once. *)
Definition postBody (body : gmap string Value) : M (option pkgError) :=
  match json_Marshal body with
  | Err err =>
      mret (Some (WebhookError ("Failed to marshal body: " +:+ err)))
  | Ok postBody =>
      match http_NewRequest_err "POST" WhatsappWebhook with
      | Some err =>
          mret (Some (WebhookError ("error when create http object " +:+ err)))
      | None =>
          let req := mkRequest "POST" WhatsappWebhook ∅ postBody in
          let req := Header_Set req "Content-Type" "application/json" in
          r ← client_Do 10 req;
          match r with
          | Err err =>
              mret (Some (WebhookError ("error when submit webhook " +:+ err)))
          | Ok _ => mret None
          end
      end
  end.

(** The body built by [forwardReceipt] (lines 319-324). *)
Definition receiptBody (evt : evReceipt) : gmap string Value :=
  <["source" := VString (SourceString (Receipt_Source evt))]>
  (<["timestamp" := VTime (Timestamp evt)]>
  (<["type" := VString (Type_ evt)]>
  (<["ids" := VStrings (MessageIDs evt)]> ∅))).

(** [forwardReceipt] (lines 315-340) *)
Definition forwardReceipt (evt : evReceipt) : M (option pkgError) :=
  log_ logrus LInfo "Forwarding receipt to webhook:";;
  postBody (receiptBody evt).

(** The body of [forwardToWebhook] before any extraction (lines 346-396). *)
Definition webhookBody (evt : evMessage) : gmap string Value :=
  let msg := Message evt in
  let imageMedia := GetImageMessage msg in
  let stickerMedia := GetStickerMessage msg in
  let videoMedia := GetVideoMessage msg in
  let audioMedia := GetAudioMessage msg in
  let documentMedia := GetDocumentMessage msg in
  let extendedMessage :=
    match ExtendedTextMessage msg with Some x => GetText x | None => "" end in
  let contextInfo :=
    match ExtendedTextMessage msg with
    | Some x => ContextInfo x
    | None => None
    end in
  let message :=
    if negb (String.eqb extendedMessage "") then
      mkEvtMessage (Info_ID (Info evt)) extendedMessage
        (match contextInfo with Some ci => GetStanzaID ci | None => "" end)
    else mkEvtMessage (Info_ID (Info evt)) (GetConversation msg) "" in
  let quotedmessage :=
    match contextInfo with
    | Some ci =>
        let conversation := QuotedMessage_GetConversation ci in
        if negb (String.eqb conversation "") then VString conversation
        else VNil
    | None => VNil
    end in
  let forwarded :=
    match contextInfo with Some ci => GetIsForwarded ci | None => false end in
  let waReaction :=
    match ReactionMessage msg with
    | Some reactionMessage =>
        mkEvtReaction (rm_GetKey_GetID reactionMessage)
                      (rm_GetText reactionMessage)
    | None => mkEvtReaction "" ""
    end in
  <["audio" := VAudio audioMedia]>
  (<["contact" := VProto (GetContactMessage msg)]>
  (<["document" := VDocument documentMedia]>
  (<["forwarded" := VBool forwarded]>
  (<["from" := VString (SourceString (Info_Source (Info evt)))]>
  (<["image" := VImage imageMedia]>
  (<["list" := VProto (GetListMessage msg)]>
  (<["live_location" := VProto (GetLiveLocationMessage msg)]>
  (<["location" := VProto (GetLocationMessage msg)]>
  (<["message" := VEvtMessage message]>
  (<["order" := VProto (GetOrderMessage msg)]>
  (<["pushname" := VString (Info_PushName (Info evt))]>
  (<["quoted_message" := quotedmessage]>
  (<["reaction" := VEvtReaction waReaction]>
  (<["sticker" := VSticker stickerMedia]>
  (<["video" := VVideo videoMedia]>
  (<["view_once" := VProto (GetViewOnceMessage msg)]> ∅)))))))))))))))).

(** One of the five guarded blocks of lines 398-432:
    [if media != nil { path, err := ExtractMedia(config.PathMedia, media);
    if err != nil { return WebhookError(...) }; body[key] = path }]. *)
Definition extractInto (key : string) (media : option DownloadableMessage)
    (body : gmap string Value) : M (pkgError + gmap string Value) :=
  match media with
  | None => mret (inr body)
  | Some media =>
      r ← ExtractMedia PathMedia (Some media);
      match r with
      | (path, Some err) =>
          mret (inl (WebhookError
                       ("Failed to download " +:+ key +:+ ": " +:+ err)))
      | (path, None) => mret (inr (<[key := VExtractedMedia path]> body))
      end
  end.

(** Lines 398-432: image, sticker, video, audio, document, in this order,
    returning at the first failure. *)
Definition extractAll (evt : evMessage) (body : gmap string Value)
  : M (pkgError + gmap string Value) :=
  let msg := Message evt in
  r ← extractInto "image" (ImageMessage <$> GetImageMessage msg) body;
  match r with
  | inl e => mret (inl e)
  | inr body =>
  r ← extractInto "sticker" (StickerMessage <$> GetStickerMessage msg) body;
  match r with
  | inl e => mret (inl e)
  | inr body =>
  r ← extractInto "video" (VideoMessage <$> GetVideoMessage msg) body;
  match r with
  | inl e => mret (inl e)
  | inr body =>
  r ← extractInto "audio" (AudioMessage <$> GetAudioMessage msg) body;
  match r with
  | inl e => mret (inl e)
  | inr body =>
  extractInto "document" (DocumentMessage <$> GetDocumentMessage msg) body
  end end end end.

(** [forwardToWebhook] (lines 343-448) *)
Definition forwardToWebhook (evt : evMessage) : M (option pkgError) :=
  log_ logrus LInfo "Forwarding event to webhook:";;
  r ← extractAll evt (webhookBody evt);
  match r with
  | inl e => mret (Some e)
  | inr body => postBody body
  end.

(** The three guards of the [*events.Message] case. *)
Definition autoReplyGuard (evt : evMessage) : bool :=
  negb (String.eqb WhatsappAutoReplyMessage "")
  && negb (isGroupJid (JID_String (Chat (Info_Source (Info evt)))))
  && negb (Contains (SourceString (Info_Source (Info evt))) "broadcast").

Definition webhookGuard (evt : evMessage) : bool :=
  negb (String.eqb WhatsappWebhook "")
  && negb (Contains (SourceString (Info_Source (Info evt))) "broadcast")
  && negb (isFromMySelf (SourceString (Info_Source (Info evt)))).

Definition receiptGuard (evt : evReceipt) : bool :=
  negb (String.eqb WhatsappWebhook "")
  && negb (isFromMySelf (SourceString (Receipt_Source evt))).

(** The three statements of the [*events.Message] case after its log
    line: the download of an image (lines 241-249), the auto-reply
    (lines 251-255), the forwarding (lines 257-263). *)
Definition downloadImage (evt : evMessage) : M unit :=
  match GetImageMessage (Message evt) with
  | Some img =>
      r ← ExtractMedia PathStorages (Some (ImageMessage img));
      match r with
      | (_, Some _) => log_ waLog_Main LError "Failed to download image: %v"
      | (_, None) => log_ waLog_Main LInfo "Image downloaded to %s"
      end
  | None => mret tt
  end.

Definition autoReply (evt : evMessage) : M unit :=
  if autoReplyGuard evt then
    cli_SendMessage (Sender (Info_Source (Info evt))) WhatsappAutoReplyMessage
  else mret tt.

Definition forwardMessage (evt : evMessage) : M unit :=
  if webhookGuard evt then
    err ← forwardToWebhook evt;
    match err with
    | Some _ => log_ logrus LError "Failed forward to webhook"
    | None => mret tt
    end
  else mret tt.

(** [cli.SendPresence] and its two log lines (lines 195-200, 219-224). *)
Definition announcePresence : M unit :=
  err ← cli_SendPresence;
  match err with
  | Some _ => log_ waLog_Main LWarn "Failed to send available presence: %v"
  | None => log_ waLog_Main LInfo "Marked self as available"
  end.

(** The forwarding of a receipt (lines 267-272, repeated at 275-280). *)
Definition forwardReceiptLogged (evt : evReceipt) : M unit :=
  if receiptGuard evt then
    err ← forwardReceipt evt;
    match err with
    | Some _ => log_ logrus LError "Failed forward to webhook"
    | None => mret tt
    end
  else mret tt.

(** The file name of a history sync (line 294). *)
Definition historyFileName (startup : Z) (id : Z) (syncType : string)
  : string :=
  PathStorages +:+ "/history-" +:+ fmt_d startup +:+ "-"
    +:+ JID_String cli_Store_ID +:+ "-" +:+ fmt_d id +:+ "-" +:+ syncType
    +:+ ".json".

(** [handler] (lines 189-312) *)
Definition handler (rawEvt : Event) : M unit :=
  match rawEvt with
  | DeleteForMe _ _ => log_ waLog_Main LInfo "Deleted message %s for %s"
  | AppStateSyncComplete name =>
      if (0 <? len cli_Store_PushName) && String.eqb name WAPatchCriticalBlock
      then announcePresence
      else mret tt
  | PairSuccess id =>
      websocket_Broadcast "LOGIN_SUCCESS"
        (Some ("Successfully pair with " +:+ JID_String id))
  | LoggedOut => websocket_Broadcast "LIST_DEVICES" None
  | Connected | PushNameSetting =>
      if len cli_Store_PushName =? 0 then mret tt else announcePresence
  | StreamReplaced => os_Exit 0
  | EvtMessage evt =>
      log_ waLog_Main LInfo "Received message %s from %s (%s): %+v";;
      downloadImage evt;;
      autoReply evt;;
      forwardMessage evt
  | EvtReceipt evt =>
      if String.eqb (Type_ evt) ReceiptTypeRead
         || String.eqb (Type_ evt) ReceiptTypeReadSelf then
        log_ waLog_Main LInfo "%v was read by %s at %s";;
        forwardReceiptLogged evt
      else if String.eqb (Type_ evt) ReceiptTypeDelivered then
        match MessageIDs evt with
        | [] => panic "index out of range [0] with length 0"
        | _ :: _ =>
            log_ waLog_Main LInfo "%s was delivered to %s at %s";;
            forwardReceiptLogged evt
        end
      else mret tt
  | EvtPresence evt =>
      if Unavailable evt then
        if LastSeen_IsZero evt then log_ waLog_Main LInfo "%s is now offline"
        else log_ waLog_Main LInfo "%s is now offline (last seen: %s)"
      else log_ waLog_Main LInfo "%s is now online"
  | EvtHistorySync evt =>
      id ← atomic_AddInt32_historySyncID 1;
      startup ← get_startupTime;
      let fileName := historyFileName startup id (Data_SyncType_String evt) in
      err ← os_OpenFile fileName 384;
      match err with
      | Some _ =>
          log_ waLog_Main LError "Failed to open file to write history sync: %v"
      | None =>
          err ← enc_Encode fileName (Data evt);
          match err with
          | Some _ => log_ waLog_Main LError "Failed to write history sync: %v"
          | None =>
              log_ waLog_Main LInfo "Wrote history sync to %s";;
              file_Close fileName
          end
      end
  | AppState => log_ waLog_Main LDebug "App state event: %+v / %+v"
  | OtherEvent => mret tt
  end.

End Whatsapp.


(* ===================================================================== *)
(** * Reading traces                                                      *)
(* ===================================================================== *)

(** The world after the actions [evs] (newest first). *)
Definition emits (evs : Trace) (w : World) : World :=
  {| trace := evs ++ trace w; historySyncID := historySyncID w;
     startupTime := startupTime w |}.

(** The actions of [new] that are not yet in [old]. *)
Definition events_since (old new : Trace) : Trace :=
  take (length new - length old)%nat new.

(** The actions of a computation started in [w]. *)
Definition events_of {A} (m : M A) (w : World) : Trace :=
  events_since (trace w) (trace (snd (m w))).

Definition isHttpDo (e : IOEvent) : bool :=
  match e with EvHttpDo _ _ _ => true | _ => false end.

Definition isSendMessage (e : IOEvent) : bool :=
  match e with EvSendMessage _ _ => true | _ => false end.

Definition isDownloadOf (m : DownloadableMessage) (e : IOEvent) : bool :=
  match e with
  | EvDownload m' _ => bool_decide (m' = m)
  | _ => false
  end.

Definition isWriteFile (e : IOEvent) : bool :=
  match e with EvWriteFile _ _ _ _ => true | _ => false end.

(** A download or a file write that the outside world refused. *)
Definition isFailedExtraction (e : IOEvent) : bool :=
  match e with
  | EvDownload _ (Err _) => true
  | EvWriteFile _ _ _ (Some _) => true
  | _ => false
  end.

(** The actions of the media extraction: log lines, downloads, clock and
    UUID reads, file writes. *)
Definition isExtractionEvent (e : IOEvent) : bool :=
  match e with
  | EvLog _ _ _ | EvDownload _ _ | EvNow _ | EvNewUUID _
  | EvWriteFile _ _ _ _ => true
  | _ => false
  end.

Definition count (p : IOEvent -> bool) (evs : Trace) : nat :=
  length (List.filter p evs).

(* ===================================================================== *)
(** * Sample instances                                                    *)
(* ===================================================================== *)

(** [JID.String()] of the protocol library. *)
Definition sample_JID_String (jid : JID) : string :=
  if 0 <? RawAgent jid then
    User jid +:+ "." +:+ fmt_d (RawAgent jid) +:+ ":" +:+ fmt_d (Device jid)
      +:+ "@" +:+ Server jid
  else if 0 <? Device jid then
    User jid +:+ ":" +:+ fmt_d (Device jid) +:+ "@" +:+ Server jid
  else if 0 <? len (User jid) then User jid +:+ "@" +:+ Server jid
  else Server jid.

(** [MessageSource.SourceString()] of the protocol library. *)
Definition sample_SourceString (ms : MessageSource) : string :=
  if bool_decide (Sender ms <> Chat ms) then
    sample_JID_String (Sender ms) +:+ " in " +:+ sample_JID_String (Chat ms)
  else sample_JID_String (Chat ms).

(** The built-in table of Go's [mime] package, by type, extensions sorted.
    A type written without parameters is looked up as it is; the empty
    string is not a media type. *)
Definition builtinExtensions : list (string * list string) :=
  [ ("image/avif", [".avif"]); ("text/css", [".css"]);
    ("image/gif", [".gif"]); ("text/html", [".htm"; ".html"]);
    ("image/jpeg", [".jpeg"; ".jpg"]); ("text/javascript", [".js"; ".mjs"]);
    ("application/json", [".json"]); ("application/pdf", [".pdf"]);
    ("image/png", [".png"]); ("image/svg+xml", [".svg"]);
    ("application/wasm", [".wasm"]); ("image/webp", [".webp"]);
    ("text/xml", [".xml"]) ].

Fixpoint assoc (k : string) (l : list (string * list string))
  : list string :=
  match l with
  | [] => []
  | (k', v) :: l => if String.eqb k k' then v else assoc k l
  end.

Definition sample_ExtensionsByType (typ : string)
  : list string * option error :=
  if String.eqb typ "" then ([], Some "mime: no media type")
  else (assoc typ builtinExtensions, None).

(** A split at the first ['@'], standing for [types.ParseJID]. *)
Fixpoint sample_ParseJID_from (user s : string) : JID * option error :=
  match s with
  | EmptyString => (NewJID "" user, None)
  | String c s' =>
      if Ascii.eqb c "@" then (NewJID user s', None)
      else sample_ParseJID_from (user +:+ String c EmptyString) s'
  end.

(** The libraries: the constants are those declared by [whatsmeow]
    ([types.DefaultUserServer], [types.ReceiptTypeRead],
    [types.ReceiptTypeReadSelf], [types.ReceiptTypeDelivered], which is the
    empty string, [appstate.WAPatchCriticalBlock]); the marshalled bytes
    are not modelled. *)
Definition sampleLib : Lib := {|
  DefaultUserServer := "s.whatsapp.net";
  JID_String := sample_JID_String;
  SourceString := sample_SourceString;
  types_ParseJID := sample_ParseJID_from "";
  ReceiptTypeRead := "read";
  ReceiptTypeReadSelf := "read-self";
  ReceiptTypeDelivered := "";
  WAPatchCriticalBlock := "critical_block";
  ExtensionsByType := sample_ExtensionsByType;
  json_Marshal := fun _ => Ok [];
  http_NewRequest_err :=
    fun _ url => if Contains url " " then Some "invalid URL" else None
|}.

Definition sampleConfig : Config := {|
  PathStorages := "storages";
  PathMedia := "statics/media";
  WhatsappAutoReplyMessage := "I am away";
  WhatsappWebhook := "http://localhost:8080/hook";
  cli_Store_PushName := "me";
  cli_Store_ID := mkJID "6281234567890" 0 12 0 "s.whatsapp.net"
|}.

(** A world in which every request succeeds; the endpoint answers with
    status [status]. *)
Definition sampleEnv (status : Z) : Env := {|
  cli_Download_result := fun _ _ => Ok [Byte.x89; Byte.x50];
  time_Now_Unix_result := fun tr => 1700000000 + Z.of_nat (length tr);
  uuid_NewString_result := fun _ => "123e4567-e89b-12d3-a456-426614174000";
  os_WriteFile_result := fun _ _ _ => None;
  client_Do_result := fun _ _ => Ok (mkResponse status);
  cli_SendPresence_result := fun _ => None;
  os_OpenFile_result := fun _ _ => None;
  enc_Encode_result := fun _ _ _ => None
|}.

(** A world in which every download fails. *)
Definition offlineEnv : Env := {|
  cli_Download_result := fun _ _ => Err "download failed";
  time_Now_Unix_result := fun tr => 1700000000 + Z.of_nat (length tr);
  uuid_NewString_result := fun _ => "123e4567-e89b-12d3-a456-426614174000";
  os_WriteFile_result := fun _ _ _ => None;
  client_Do_result := fun _ _ => Err "connection refused";
  cli_SendPresence_result := fun _ => None;
  os_OpenFile_result := fun _ _ => None;
  enc_Encode_result := fun _ _ _ => None
|}.

Definition world0 : World :=
  {| trace := []; historySyncID := 0; startupTime := 1699990000 |}.

Definition contact : JID := NewJID "6289876543210" "s.whatsapp.net".

Definition sampleInfo : MessageInfo :=
  mkMessageInfo (mkMessageSource contact contact false false)
                "3EB0" "Ana" 1700000000 "text" "".

(** A plain text message. *)
Definition textEvent : evMessage :=
  mkEvMessage sampleInfo
    (mkMessage "hello" None None None None None None None None None None
               None None None)
    false.

(** A message with one image attachment. *)
Definition sampleImage : waImageMessage := mkImage 7%N "image/jpeg" "hi".

Definition imageEvent : evMessage :=
  mkEvMessage sampleInfo
    (mkMessage "" (Some sampleImage) None None None None None None None None
               None None None None)
    false.

(** A document attachment: an SVG drawing. *)
Definition sampleDocument : waDocumentMessage :=
  mkDocument 9%N "image/svg+xml" "logo".

(** A message with one image attachment sent in a group chat. *)
Definition groupEvent : evMessage :=
  mkEvMessage
    (mkMessageInfo
       (mkMessageSource (NewJID "120363041234567890" "g.us") contact false
                        true)
       "3EB1" "Ana" 1700000000 "media" "")
    (mkMessage "" (Some sampleImage) None None None None None None None None
               None None None None)
    false.

(** A delivery receipt for one message. *)
Definition deliveredReceipt : evReceipt :=
  mkEvReceipt (mkMessageSource contact contact false false)
              ["ABC"] 1700000005 "".



(* ===================================================================== *)
(** * The other functions of [whatsapp.go]                                *)
(* ===================================================================== *)

(** [config.WhatsappTypeUser] and [config.WhatsappTypeGroup], as the
    package [config] declares them. *)
Definition WhatsappTypeUser : string := "@s.whatsapp.net".
Definition WhatsappTypeGroup : string := "@g.us".

(** [SanitizePhone] (lines 55-63).  The function works through a pointer:
    the argument is the string pointed to, or [None] for a nil pointer, and
    the result is what the pointer holds afterwards. *)
Definition SanitizePhone (phone : option string) : option string :=
  match phone with
  | Some p =>
      if (0 <? len p) && negb (Contains p "@") then
        if len p <=? 15 then Some (p +:+ WhatsappTypeUser)
        else Some (p +:+ WhatsappTypeGroup)
      else Some p
  | None => None
  end.

(** [GetPlatformName] (lines 65-98) *)
Definition GetPlatformName (deviceID : Z) : string :=
  match deviceID with
  | 0 => "UNKNOWN"
  | 1 => "CHROME"
  | 2 => "FIREFOX"
  | 3 => "IE"
  | 4 => "OPERA"
  | 5 => "SAFARI"
  | 6 => "EDGE"
  | 7 => "DESKTOP"
  | 8 => "IPAD"
  | 9 => "ANDROID_TABLET"
  | 10 => "OHANA"
  | 11 => "ALOHA"
  | 12 => "CATALINA"
  | 13 => "TCL_TV"
  | _ => "UNKNOWN"
  end.

(** What [*whatsmeow.Client] answers to the three questions that
    [MustLogin] and [IsOnWhatsapp] ask; [IsOnWhatsApp] gives the [IsIn]
    flag of each response.  The questions leave no action in the trace. *)
Record waClient : Type := mkClient {
  IsConnected : bool;
  IsLoggedIn : bool;
  IsOnWhatsApp : list string -> result (list bool)
}.

(** The errors of [pkg/error] that the login helpers raise or return;
    [FromParseJID] is an error handed on from [ParseJID]. *)
Inductive loginError : Type :=
| InternalServerError (msg : string)
| ErrNotConnected
| ErrNotLoggedIn
| InvalidJID (msg : string)
| FromParseJID (e : pkgError).

(** The value of a panic, recorded by the kind of the error and its
    message. *)
Definition panicValue (e : loginError) : string :=
  match e with
  | InternalServerError msg => "InternalServerError: " +:+ msg
  | ErrNotConnected => "ErrNotConnected"
  | ErrNotLoggedIn => "ErrNotLoggedIn"
  | InvalidJID msg => "InvalidJID: " +:+ msg
  | FromParseJID (WebhookError msg) => "WebhookError: " +:+ msg
  | FromParseJID ErrInvalidJID => "ErrInvalidJID"
  end.

(** [MustLogin] (lines 178-187) *)
Definition MustLogin (waCli : option waClient) : M unit :=
  match waCli with
  | None =>
      panic (panicValue
               (InternalServerError "Whatsapp client is not initialized"))
  | Some cli =>
      if negb (IsConnected cli) then panic (panicValue ErrNotConnected)
      else if negb (IsLoggedIn cli) then panic (panicValue ErrNotLoggedIn)
      else mret tt
  end.

(** [IsOnWhatsapp] (lines 119-135).  A method call on a nil client is a
    nil dereference. *)
Definition IsOnWhatsapp (waCli : option waClient) (jid : string) : M bool :=
  if Contains jid "@s.whatsapp.net" then
    match waCli with
    | None => panic "invalid memory address or nil pointer dereference"
    | Some cli =>
        match IsOnWhatsApp cli [jid] with
        | Err err => panic (panicValue (InvalidJID err))
        | Ok data => mret (forallb (fun IsIn => IsIn) data)
        end
    end
  else mret true.

(** [ValidateJidWithLogin] (lines 137-145); [accountValidation] is
    [config.WhatsappAccountValidation]. *)
Definition ValidateJidWithLogin {L : Lib} (accountValidation : bool)
    (waCli : option waClient) (jid : string)
  : M (JID * option loginError) :=
  MustLogin waCli;;
  bind (if accountValidation then
          bind (IsOnWhatsapp waCli jid)
               (fun onWhatsapp => ret (negb onWhatsapp))
        else ret false)
       (fun rejected : bool =>
          if rejected then
            mret (mkJID "" 0 0 0 "",
                  Some (InvalidJID
                          ("Phone " +:+ jid +:+ " is not on whatsapp")))
          else
            r ← ParseJID jid;
            mret (fst r, FromParseJID <$> snd r)).

Definition isSendPresence (e : IOEvent) : bool :=
  match e with EvSendPresence _ => true | _ => false end.

(** The actions of the handling of a message: those of the extraction,
    the request to the webhook and the auto-reply. *)
Definition isMessageEvent (e : IOEvent) : bool :=
  isExtractionEvent e || isHttpDo e || isSendMessage e.

(** The receipts that [handler] takes as read (lines 265) and as
    delivered (line 273). *)
Definition isReadReceipt {L : Lib} (evt : evReceipt) : bool :=
  String.eqb (Type_ evt) ReceiptTypeRead
  || String.eqb (Type_ evt) ReceiptTypeReadSelf.

Definition isDeliveredReceipt {L : Lib} (evt : evReceipt) : bool :=
  negb (isReadReceipt evt) && String.eqb (Type_ evt) ReceiptTypeDelivered.

(** The events on which [handler] may send a request to the webhook. *)
Definition postingAllowed {L : Lib} {C : Config} (evt : Event) : bool :=
  match evt with
  | EvtMessage m => webhookGuard m
  | EvtReceipt r =>
      receiptGuard r
      && (isReadReceipt r
          || isDeliveredReceipt r
             && negb (bool_decide (MessageIDs r = [])))
  | _ => false
  end.

(** The events on which [handler] announces the presence. *)
Definition announcesPresence {L : Lib} {C : Config} (evt : Event) : bool :=
  (0 <? len cli_Store_PushName)
  && match evt with
     | Connected | PushNameSetting => true
     | AppStateSyncComplete name => String.eqb name WAPatchCriticalBlock
     | _ => false
     end.

(** What [handler] ends with: the process exits on a replaced stream, a
    delivery receipt without message ids is a panic, everything else
    returns. *)
Definition handlerOutcome {L : Lib} (evt : Event) : Outcome unit :=
  match evt with
  | StreamReplaced => Exit 0
  | EvtReceipt r =>
      if isDeliveredReceipt r && bool_decide (MessageIDs r = [])
      then Panic "index out of range [0] with length 0"
      else Done tt
  | _ => Done tt
  end.

(** The seventeen keys of the body of [forwardToWebhook]. *)
Definition webhookKeys : gset string :=
  list_to_set
    [ "audio"; "contact"; "document"; "forwarded"; "from"; "image"; "list";
      "live_location"; "location"; "message"; "order"; "pushname";
      "quoted_message"; "reaction"; "sticker"; "video"; "view_once" ].

(** A client that is connected and logged in and finds every number but
    ["620000000000@s.whatsapp.net"] on WhatsApp. *)
Definition sampleClient : waClient := {|
  IsConnected := true;
  IsLoggedIn := true;
  IsOnWhatsApp :=
    fun jids =>
      Ok (map (fun jid => negb (String.eqb jid "620000000000@s.whatsapp.net"))
              jids)
|}.

(** A read receipt and a delivery receipt without message ids. *)
Definition readReceiptNoIds : evReceipt :=
  mkEvReceipt (mkMessageSource contact contact false false)
              [] 1700000006 "read".

Definition deliveredReceiptNoIds : evReceipt :=
  mkEvReceipt (mkMessageSource contact contact false false)
              [] 1700000007 "".

(** A message that the account itself has sent from another device. *)
Definition ownEvent : evMessage :=
  mkEvMessage
    (mkMessageInfo
       (mkMessageSource (NewJID "6281234567890" "s.whatsapp.net")
                        (NewJID "6281234567890" "s.whatsapp.net") true false)
       "3EB2" "me" 1700000000 "text" "")
    (mkMessage "note to self" None None None None None None None None None
               None None None None)
    false.

(** A plain text message sent in a group chat. *)
Definition groupTextEvent : evMessage :=
  mkEvMessage
    (mkMessageInfo
       (mkMessageSource (NewJID "120363041234567890" "g.us") contact false
                        true)
       "3EB3" "Ana" 1700000000 "text" "")
    (mkMessage "hello all" None None None None None None None None None
               None None None None)
    false.

(** A reply that quotes a message and was forwarded. *)
Definition replyEvent : evMessage :=
  mkEvMessage sampleInfo
    (mkMessage "ignored" None None None None None
               (Some (mkExtendedText "hi"
                        (Some (mkContextInfo "XYZ" "earlier" true))))
               None None None None None None None)
    false.

(* ===================================================================== *)
(** * Vocabulary of the statements                                        *)
(* ===================================================================== *)

Fixpoint String_forallb (p : ascii -> bool) (s : string) : bool :=
  match s with
  | EmptyString => true
  | String c s' => p c && String_forallb p s'
  end.

(** [s] is empty or starts with a byte that is not a digit. *)
Definition noLeadingDigit (s : string) : bool :=
  match s with
  | EmptyString => true
  | String c _ => negb (isDigit c)
  end.

(** The argument without one leading ['+'] (lines 101-103). *)
Definition withoutPlus (arg : string) : string :=
  match arg with
  | String c rest => if Ascii.eqb c "+" then rest else arg
  | EmptyString => EmptyString
  end.

(** What lines 504-506 compute on their own: ['.'] and the text after the
    last ['/'], or nothing when there is no ['/']. *)
Definition afterLastSlash (mimeType : string) : string :=
  let parts := Split mimeType "/" in
  if 1 <? Z.of_nat (length parts) then "." +:+ List.last parts "" else "".

(** [GetMimetype()] and [GetCaption()] as [ExtractMedia] reads them from
    each kind of attachment (lines 485-499): audio and stickers have no
    caption. *)
Definition mimetypeOf (m : DownloadableMessage) : string :=
  match m with
  | ImageMessage media => img_Mimetype media
  | AudioMessage media => aud_Mimetype media
  | VideoMessage media => vid_Mimetype media
  | StickerMessage media => stk_Mimetype media
  | DocumentMessage media => doc_Mimetype media
  end.

Definition captionOf (m : DownloadableMessage) : string :=
  match m with
  | ImageMessage media => img_Caption media
  | VideoMessage media => vid_Caption media
  | DocumentMessage media => doc_Caption media
  | AudioMessage _ | StickerMessage _ => ""
  end.

(** The descriptor of a file written for [m] under [root] at time [now]
    with the identifier [uuid]. *)
Definition extractedAs {L : Lib} (root : string) (m : DownloadableMessage)
    (now : Z) (uuid : string) : ExtractedMedia :=
  mkExtractedMedia
    (root +:+ "/" +:+ fmt_d now +:+ "-" +:+ uuid
       +:+ mediaExtension (mimetypeOf m))
    (mimetypeOf m) (captionOf m).

(** The four actions of a successful extraction of [m] into [em]. *)
Definition extractionOk (m : DownloadableMessage) (em : ExtractedMedia)
    (data : bytes) (now : Z) (uuid : string) : Trace :=
  [EvWriteFile (MediaPath em) data 384 None; EvNewUUID uuid; EvNow now;
   EvDownload m (Ok data)].

(** The actions [evs] are those of an extraction of [m] that failed with
    [err]: the download was refused, or the file could not be written. *)
Definition extractionFailed (m : DownloadableMessage) (err : error)
    (evs : Trace) : Prop :=
  evs = [EvDownload m (Err err)]
  \/ exists path data now uuid,
       evs = [EvWriteFile path data 384 (Some err); EvNewUUID uuid;
              EvNow now; EvDownload m (Ok data)].

(** The field [field] of a body is what one guarded block of
    [forwardToWebhook] leaves for the attachment [media] after the actions
    [evs]: what it held [before] when there is no attachment, else the
    descriptor of a file that [evs] downloaded and wrote under
    [PathMedia]. *)
Definition fieldAfterExtraction {L : Lib} {C : Config} (evs : Trace)
    (media : option DownloadableMessage) (before field : option Value)
  : Prop :=
  match media with
  | None => field = before
  | Some m =>
      exists data now uuid,
        field = Some (VExtractedMedia (extractedAs PathMedia m now uuid))
        /\ In (EvDownload m (Ok data)) evs
        /\ In (EvWriteFile (MediaPath (extractedAs PathMedia m now uuid))
                           data 384 None) evs
  end.

(** The five attachments of a message as [forwardToWebhook] passes them
    to [ExtractMedia]. *)
Definition imageOf (evt : evMessage) : option DownloadableMessage :=
  ImageMessage <$> GetImageMessage (Message evt).
Definition stickerOf (evt : evMessage) : option DownloadableMessage :=
  StickerMessage <$> GetStickerMessage (Message evt).
Definition videoOf (evt : evMessage) : option DownloadableMessage :=
  VideoMessage <$> GetVideoMessage (Message evt).
Definition audioOf (evt : evMessage) : option DownloadableMessage :=
  AudioMessage <$> GetAudioMessage (Message evt).
Definition documentOf (evt : evMessage) : option DownloadableMessage :=
  DocumentMessage <$> GetDocumentMessage (Message evt).

(** The five media fields of [body'] are those left by the five guarded
    blocks run on [body] with the actions [evs]; no other field differs. *)
Definition mediaFieldsAfter {L : Lib} {C : Config} (evt : evMessage)
    (evs : Trace) (body body' : gmap string Value) : Prop :=
  fieldAfterExtraction evs (imageOf evt) (body !! "image") (body' !! "image")
  /\ fieldAfterExtraction evs (stickerOf evt) (body !! "sticker")
       (body' !! "sticker")
  /\ fieldAfterExtraction evs (videoOf evt) (body !! "video")
       (body' !! "video")
  /\ fieldAfterExtraction evs (audioOf evt) (body !! "audio")
       (body' !! "audio")
  /\ fieldAfterExtraction evs (documentOf evt) (body !! "document")
       (body' !! "document")
  /\ forall k, k <> "image" -> k <> "sticker" -> k <> "video" ->
       k <> "audio" -> k <> "document" -> body' !! k = body !! k.

(** One guarded block went through: the body is unchanged when there is
    no attachment, else its field holds the descriptor of the written
    file. *)
Definition blockOk {L : Lib} {C : Config} (key : string)
    (media : option DownloadableMessage) (body body' : gmap string Value)
    (evs : Trace) : Prop :=
  match media with
  | None => body' = body /\ evs = []
  | Some m =>
      exists data now uuid,
        body' = <[key := VExtractedMedia (extractedAs PathMedia m now uuid)]>
                  body
        /\ evs = extractionOk m (extractedAs PathMedia m now uuid)
                               data now uuid
  end.

(** One guarded block returned the error [e]. *)
Definition blockFailed (key : string) (media : option DownloadableMessage)
    (e : pkgError) (evs : Trace) : Prop :=
  exists m err,
    media = Some m
    /\ e = WebhookError ("Failed to download " +:+ key +:+ ": " +:+ err)
    /\ extractionFailed m err evs.

(** The request that both forwarders build from the marshalled bytes. *)
Definition webhookRequest {C : Config} (postBody : bytes) : Request :=
  Header_Set (mkRequest "POST" WhatsappWebhook ∅ postBody)
             "Content-Type" "application/json".

(** [postBody body] returned [r] after the actions [evs]. *)
Definition postOutcome {L : Lib} {C : Config} (body : gmap string Value)
    (r : option pkgError) (evs : Trace) : Prop :=
  match json_Marshal body with
  | Err err =>
      r = Some (WebhookError ("Failed to marshal body: " +:+ err))
      /\ evs = []
  | Ok bytes =>
      match http_NewRequest_err "POST" WhatsappWebhook with
      | Some err =>
          r = Some (WebhookError ("error when create http object " +:+ err))
          /\ evs = []
      | None =>
          exists res,
            evs = [EvHttpDo 10 (webhookRequest bytes) res]
            /\ r = match res with
                   | Err err =>
                       Some (WebhookError
                               ("error when submit webhook " +:+ err))
                   | Ok _ => None
                   end
      end
  end.

(** [forwardToWebhook evt] returned [r] after the actions [evs]: a log
    line, then the actions [evs_x] of the five guarded blocks, then, if
    none of them failed, those of [postBody] on the body they left. *)
Definition webhookRun {L : Lib} {C : Config} (evt : evMessage)
    (r : option pkgError) (evs : Trace) : Prop :=
  exists evs_x,
    forallb isExtractionEvent evs_x = true
    /\ (forall m', (count (isDownloadOf m') evs_x <= 1)%nat)
    /\ (forall img, GetImageMessage (Message evt) = Some img ->
          count (isDownloadOf (ImageMessage img)) evs_x = 1%nat)
    /\ ((exists msg,
           r = Some (WebhookError msg)
           /\ existsb isFailedExtraction evs_x = true
           /\ evs = evs_x
                     ++ [EvLog logrus LInfo "Forwarding event to webhook:"])
        \/ (exists body posts,
              existsb isFailedExtraction evs_x = false
              /\ mediaFieldsAfter evt evs_x (webhookBody evt) body
              /\ postOutcome body r posts
              /\ evs = posts ++ evs_x
                        ++ [EvLog logrus LInfo
                              "Forwarding event to webhook:"])).

(** The requests [posts] of one call that returned [r]: nil is returned
    only after the single request, built from a marshalled body, got a
    response; every error is a [WebhookError], returned after no request
    or after the one request that failed. *)
Definition deliveryShape {L : Lib} {C : Config} (r : option pkgError)
    (posts : Trace) : Prop :=
  match r with
  | None =>
      exists body req resp,
        posts = [EvHttpDo 10 req (Ok resp)]
        /\ json_Marshal body = Ok (Body req)
        /\ http_NewRequest_err "POST" WhatsappWebhook = None
        /\ Method req = "POST" /\ URL req = WhatsappWebhook
        /\ Header req !! "Content-Type" = Some ["application/json"]
  | Some e =>
      (exists msg, e = WebhookError msg)
      /\ (posts = [] \/ exists req err, posts = [EvHttpDo 10 req (Err err)])
  end.

(** One call of a forwarder: it returns, and its requests have the shape
    above. *)
Definition deliversOnce {L : Lib} {C : Config}
    (m : M (option pkgError)) (w : World) : Prop :=
  exists r, fst (m w) = Done r
            /\ deliveryShape r (List.filter isHttpDo (events_of m w)).

(* ===================================================================== *)
(** * The string functions on the inputs of this file                     *)
(* ===================================================================== *)

Example Split_examples :
  Split "image/jpeg" "/" = ["image"; "jpeg"]
  /\ Split "" "/" = [""]
  /\ Split "a/b/" "/" = ["a"; "b"; ""].
Proof. repeat split. Qed.

Example FindAllDigits_examples :
  FindAllDigits "+6281234567890:12@s.whatsapp.net" = ["6281234567890"; "12"]
  /\ FindAllDigits "status@broadcast" = []
  /\ FindAllDigits "a1b22" = ["1"; "22"].
Proof. repeat split. Qed.

Example Contains_examples :
  Contains "120363041234567890@g.us" "@g.us" = true
  /\ Contains "6281234567890@s.whatsapp.net" "@g.us" = false
  /\ Contains "status@broadcast" "broadcast" = true
  /\ Contains "" "" = true.
Proof. repeat split. Qed.

Example fmt_d_examples :
  fmt_d 0 = "0" /\ fmt_d 1700000000 = "1700000000"
  /\ fmt_d (-2147483648) = "-2147483648".
Proof. repeat split. Qed.

Example wrap32_examples :
  wrap32 0 = 0 /\ wrap32 2147483647 = 2147483647
  /\ wrap32 2147483648 = -2147483648 /\ wrap32 (-1) = -1.
Proof. repeat split. Qed.

(* ===================================================================== *)
(** * Addresses                                                           *)
(* ===================================================================== *)

Lemma append_cons (a : ascii) (s t : string) :
  String a s +:+ t = String a (s +:+ t).
Proof. reflexivity. Qed.

Lemma append_nil (t : string) : "" +:+ t = t.
Proof. reflexivity. Qed.

Lemma append_assoc_char (cur : string) (c : ascii) (s : string) :
  (cur +:+ String c EmptyString) +:+ s = cur +:+ String c s.
Proof.
  induction cur as [|a cur IH]; [reflexivity|].
  rewrite !append_cons. now rewrite IH.
Qed.

Lemma append_empty_r (s : string) : s +:+ "" = s.
Proof.
  induction s as [|a s IH]; [reflexivity|].
  rewrite append_cons. now rewrite IH.
Qed.

Lemma FindAllDigits_from_skip (pre s : string) :
  String_forallb (fun c => negb (isDigit c)) pre = true ->
  FindAllDigits_from "" (pre +:+ s) = FindAllDigits_from "" s.
Proof.
  induction pre as [|c pre IH]; intros H; [reflexivity|].
  simpl in H. apply andb_prop in H as [Hc Hpre].
  apply negb_true_iff in Hc. rewrite append_cons. simpl. rewrite Hc.
  now apply IH.
Qed.

Lemma FindAllDigits_from_run (digits cur s : string) :
  String_forallb isDigit digits = true ->
  FindAllDigits_from cur (digits +:+ s)
  = FindAllDigits_from (cur +:+ digits) s.
Proof.
  revert cur. induction digits as [|c digits IH]; intros cur H.
  - now rewrite append_empty_r.
  - simpl in H. apply andb_prop in H as [Hc Hd].
    rewrite append_cons. simpl. rewrite Hc.
    rewrite IH by assumption. now rewrite append_assoc_char.
Qed.

Lemma FindAllDigits_from_stop (cur suf : string) :
  cur <> "" -> noLeadingDigit suf = true ->
  exists rest, FindAllDigits_from cur suf = cur :: rest.
Proof.
  intros Hcur Hsuf. destruct suf as [|c suf]; simpl in *.
  - destruct cur; [congruence|]. now exists [].
  - apply negb_true_iff in Hsuf. rewrite Hsuf.
    destruct cur; [congruence|]. eauto.
Qed.

(** The phone number of an address is its first run of digits, whatever
    stands before and after it. *)
Lemma extractPhoneNumber_first_run (pre digits suf : string) :
  String_forallb (fun c => negb (isDigit c)) pre = true ->
  String_forallb isDigit digits = true -> digits <> "" ->
  noLeadingDigit suf = true ->
  extractPhoneNumber (pre +:+ digits +:+ suf) = digits.
Proof.
  intros Hpre Hd Hne Hsuf. unfold extractPhoneNumber, FindAllDigits.
  rewrite FindAllDigits_from_skip by assumption.
  rewrite FindAllDigits_from_run by assumption. rewrite append_nil.
  destruct (FindAllDigits_from_stop digits suf Hne Hsuf) as [rest ->].
  reflexivity.
Qed.



(** C10.  [ParseJID] panics on the empty string (it reads [arg[0]]); on a
    non-empty argument it returns; and on a non-empty argument without
    ['@'] it returns, without error and without any action, the JID whose
    user is the argument less one leading ['+'] and whose server is the
    default user server. *)
Theorem ParseJID_total_on_nonempty {L : Lib} (arg : string) (w : World) :
  (arg = "" ->
   ParseJID arg w = (Panic "index out of range [0] with length 0", w))
  /\ (arg <> "" -> exists r w', ParseJID arg w = (Done r, w'))
  /\ (arg <> "" -> ContainsRune arg "@" = false ->
      ParseJID arg w
      = (Done (NewJID (withoutPlus arg) DefaultUserServer, None), w)).
Proof.
  split; [intros ->; reflexivity|].
  split.
  - intros Hne. destruct arg as [|c rest]; [congruence|].
    unfold ParseJID.
    destruct (negb (ContainsRune (if Ascii.eqb c "+" then rest
                                  else String c rest) "@")).
    + eexists _, _. reflexivity.
    + destruct (types_ParseJID _) as [recipient [err|]].
      * eexists _, _. reflexivity.
      * destruct (String.eqb (User recipient) ""); eexists _, _; reflexivity.
  - intros Hne Hat. destruct arg as [|c rest]; [congruence|].
    unfold ParseJID, withoutPlus.
    assert (Hat' : ContainsRune (if Ascii.eqb c "+" then rest
                                 else String c rest) "@" = false).
    { destruct (Ascii.eqb c "+"); [|exact Hat].
      simpl in Hat. apply orb_false_iff in Hat. tauto. }
    rewrite Hat'. reflexivity.
Qed.

Lemma ParseJID_total_on_nonempty_witness :
  ParseJID (L := sampleLib) "+6281234567890" world0
  = (Done (NewJID "6281234567890" "s.whatsapp.net", None), world0).
Proof.
  apply (proj2 (proj2 (ParseJID_total_on_nonempty (L := sampleLib)
                         "+6281234567890" world0)));
    [discriminate | reflexivity].
Defined.

(* ===================================================================== *)
(** * Media extraction                                                    *)
(* ===================================================================== *)

(** C9.  With no media reference [ExtractMedia] returns the empty
    [ExtractedMedia] and no error; its only action is one log line, so
    nothing is downloaded and no file is written. *)
Theorem ExtractMedia_nil {L : Lib} {E : Env} (storageLocation : string)
    (w : World) :
  ExtractMedia storageLocation None w
  = (Done (mkExtractedMedia "" "" "", None),
     emits [EvLog logrus LInfo "Skip download because data is nil"] w)
  /\ forall m, count (isDownloadOf m)
                 (events_of (ExtractMedia storageLocation None) w) = 0%nat
  /\ count isWriteFile (events_of (ExtractMedia storageLocation None) w)
     = 0%nat.
Proof.
  split; [reflexivity|]. intros m.
  unfold events_of, events_since. simpl.
  replace (S (length (trace w)) - length (trace w))%nat with 1%nat by lia.
  split; reflexivity.
Qed.

(* ===================================================================== *)
(** * Traces of the forwarders                                            *)
(* ===================================================================== *)

Ltac munfold :=
  unfold mbind, M_bind, bind, mret, M_ret, ret, log_, io, cli_Download,
    time_Now_Unix, uuid_NewString, os_WriteFile, client_Do, cli_SendMessage,
    panic in *.

Lemma emits_nil (w : World) : emits [] w = w.
Proof. now destruct w. Qed.

Lemma emits_emits (a b : Trace) (w : World) :
  emits a (emits b w) = emits (a ++ b) w.
Proof. unfold emits. simpl. now rewrite app_assoc. Qed.

Lemma emit_emits (e : IOEvent) (w : World) : emit e w = emits [e] w.
Proof. reflexivity. Qed.

Lemma events_since_app (evs old : Trace) :
  events_since old (evs ++ old) = evs.
Proof.
  unfold events_since. rewrite length_app.
  replace (length evs + length old - length old)%nat with (length evs)
    by lia.
  apply take_app_length.
Qed.

Lemma events_of_emits {A} (m : M A) (w : World) (o : Outcome A)
    (evs : Trace) :
  m w = (o, emits evs w) -> events_of m w = evs.
Proof.
  intros H. unfold events_of. rewrite H. simpl. apply events_since_app.
Qed.

Lemma count_app (p : IOEvent -> bool) (a b : Trace) :
  count p (a ++ b) = (count p a + count p b)%nat.
Proof. unfold count. now rewrite List.filter_app, length_app. Qed.

Section Runs.
Context {L : Lib} {C : Config} {E : Env}.

(** What [ExtractMedia] does with an attachment: either the extraction
    fails and the error is returned, or the descriptor of the written file
    is returned. *)
Lemma ExtractMedia_run (root : string) (m : DownloadableMessage)
    (w : World) :
  exists evs em err,
    ExtractMedia root (Some m) w = (Done (em, err), emits evs w)
    /\ match err with
       | Some e => extractionFailed m e evs
       | None =>
           exists data now uuid,
             em = extractedAs root m now uuid
             /\ evs = extractionOk m em data now uuid
       end.
Proof.
  unfold ExtractMedia. munfold.
  destruct (cli_Download_result (trace w) m) as [data|e] eqn:Hd.
  - cbv zeta. simpl.
    match goal with
    | |- context [os_WriteFile_result ?tr ?p ?d] =>
        destruct (os_WriteFile_result tr p d) as [e|] eqn:Hw
    end.
    + eexists _, _, (Some e). split.
      * rewrite !emit_emits, !emits_emits. simpl. reflexivity.
      * right. eexists _, _, _, _. reflexivity.
    + eexists _, _, None. split.
      * rewrite !emit_emits, !emits_emits. simpl. reflexivity.
      * eexists data, _, _. split; [|reflexivity].
        unfold extractedAs. destruct m; reflexivity.
  - eexists _, _, (Some e). split.
    + rewrite emit_emits. reflexivity.
    + left. reflexivity.
Qed.

End Runs.

(** Go's [mime.ExtensionsByType] returns no extensions together with an
    error.  Under this contract the test [err != nil && len(ext) > 0] of
    line 502 never holds. *)
Lemma mediaExtension_afterLastSlash {L : Lib} :
  (forall typ ext err, ExtensionsByType typ = (ext, Some err) -> ext = []) ->
  forall mimeType, mediaExtension mimeType = afterLastSlash mimeType.
Proof.
  intros Hcontract mimeType. unfold mediaExtension, afterLastSlash.
  destruct (ExtensionsByType mimeType) as [ext [err|]] eqn:Hlookup.
  - rewrite (Hcontract _ _ _ Hlookup). reflexivity.
  - reflexivity.
Qed.

Example afterLastSlash_examples :
  afterLastSlash "application/x-custom" = ".x-custom"
  /\ afterLastSlash "image/jpeg" = ".jpeg"
  /\ afterLastSlash "audio/ogg; codecs=opus" = ".ogg; codecs=opus"
  /\ afterLastSlash "" = ""
  /\ afterLastSlash "jpeg" = "".
Proof. repeat split. Qed.

(** C1.  Whenever [mime.ExtensionsByType] keeps its contract (no
    extensions together with an error), the extension chosen by lines
    501-506 is ['.'] and the text after the last ['/'] of the mime type,
    or nothing when the mime type has no ['/']: the result of the lookup
    is never used, also when the lookup succeeds.  Hence every file
    written by [ExtractMedia] is named
    [{storageLocation}/{unix seconds}-{uuid}] followed by that text. *)
Theorem mediaExtension_never_uses_lookup {L : Lib} {E : Env} :
  (forall typ ext err, ExtensionsByType typ = (ext, Some err) -> ext = []) ->
  (forall mimeType, mediaExtension mimeType = afterLastSlash mimeType)
  /\ (forall root m w em w',
        ExtractMedia root (Some m) w = (Done (em, None), w') ->
        exists now uuid,
          MediaPath em
          = root +:+ "/" +:+ fmt_d now +:+ "-" +:+ uuid
              +:+ afterLastSlash (mimetypeOf m)).
Proof.
  intros Hcontract. split; [now apply mediaExtension_afterLastSlash|].
  intros root m w em w' Hrun.
  destruct (ExtractMedia_run root m w) as (evs & em' & err & Hrun' & H).
  rewrite Hrun in Hrun'. injection Hrun' as -> <- _.
  destruct H as (data & now & uuid & -> & _).
  exists now, uuid. unfold extractedAs. simpl.
  now rewrite mediaExtension_afterLastSlash.
Qed.

Lemma mediaExtension_never_uses_lookup_witness :
  ExtensionsByType (Lib := sampleLib) "image/svg+xml" = ([".svg"], None)
  /\ mediaExtension (L := sampleLib) "image/svg+xml" = ".svg+xml"
  /\ ExtensionsByType (Lib := sampleLib) "image/jpeg"
     = ([".jpeg"; ".jpg"], None)
  /\ mediaExtension (L := sampleLib) "image/jpeg" = ".jpeg"
  /\ fst (ExtractMedia (L := sampleLib) (E := sampleEnv 200) "statics/media"
            (Some (DocumentMessage sampleDocument)) world0)
     = Done (mkExtractedMedia
               "statics/media/1700000001-123e4567-e89b-12d3-a456-426614174000.svg+xml"
               "image/svg+xml" "logo", None).
Proof.
  assert (Hcontract : forall typ ext err,
            ExtensionsByType (Lib := sampleLib) typ = (ext, Some err) ->
            ext = []).
  { intros typ ext err. simpl. unfold sample_ExtensionsByType.
    destruct (String.eqb typ ""); congruence. }
  split; [reflexivity|]. split.
  - rewrite (proj1 (mediaExtension_never_uses_lookup
                      (L := sampleLib) (E := sampleEnv 200) Hcontract)).
    reflexivity.
  - repeat split.
Defined.

Section Blocks.
Context {L : Lib} {C : Config} {E : Env}.

Lemma extractInto_run (key : string) (media : option DownloadableMessage)
    (body : gmap string Value) (w : World) :
  exists evs r,
    extractInto key media body w = (Done r, emits evs w)
    /\ match r with
       | inl e => blockFailed key media e evs
       | inr body' => blockOk key media body body' evs
       end.
Proof.
  unfold extractInto. destruct media as [m|].
  - destruct (ExtractMedia_run PathMedia m w) as (evs & em & err & Hrun & H).
    unfold mbind, M_bind, bind. rewrite Hrun. destruct err as [e|].
    + eexists evs, (inl _). split; [reflexivity|].
      exists m, e. auto.
    + destruct H as (data & now & uuid & -> & ->).
      eexists _, (inr _). split; [reflexivity|].
      exists data, now, uuid. auto.
  - exists [], (inr body). rewrite emits_nil. split; [reflexivity|].
    split; reflexivity.
Qed.

Lemma extractionFailed_facts (m : DownloadableMessage) (err : error)
    (evs : Trace) :
  extractionFailed m err evs ->
  forallb isExtractionEvent evs = true
  /\ existsb isFailedExtraction evs = true
  /\ forallb (fun e => negb (isHttpDo e) && negb (isSendMessage e)) evs = true
  /\ forall m', count (isDownloadOf m') evs
                = if decide (Some m = Some m') then 1%nat else 0%nat.
Proof.
  intros [->|(path & data & now & uuid & ->)];
    (repeat split; try reflexivity; intros m'; unfold count; simpl;
     case_bool_decide; case_decide; simpl; congruence).
Qed.

Lemma blockFailed_facts (key : string) (media : option DownloadableMessage)
    (e : pkgError) (evs : Trace) :
  blockFailed key media e evs ->
  (exists msg, e = WebhookError msg)
  /\ forallb isExtractionEvent evs = true
  /\ existsb isFailedExtraction evs = true
  /\ forall m', count (isDownloadOf m') evs
                = if decide (media = Some m') then 1%nat else 0%nat.
Proof.
  intros (m & err & -> & -> & H).
  destruct (extractionFailed_facts _ _ _ H) as (H1 & H2 & _ & H4).
  eauto.
Qed.

Lemma blockOk_facts (key : string) (media : option DownloadableMessage)
    (body body' : gmap string Value) (evs : Trace) :
  blockOk key media body body' evs ->
  forallb isExtractionEvent evs = true
  /\ existsb isFailedExtraction evs = false
  /\ forall m', count (isDownloadOf m') evs
                = if decide (media = Some m') then 1%nat else 0%nat.
Proof.
  unfold blockOk. destruct media as [m|].
  - intros (data & now & uuid & _ & ->).
    repeat split; try reflexivity. intros m'. unfold count. simpl.
    case_bool_decide; case_decide; simpl; congruence.
  - intros [_ ->]. repeat split; try reflexivity.
Qed.

Lemma blockOk_field (key : string) (media : option DownloadableMessage)
    (body body' : gmap string Value) (evs : Trace) :
  blockOk key media body body' evs ->
  fieldAfterExtraction evs media (body !! key) (body' !! key)
  /\ forall k, k <> key -> body' !! k = body !! k.
Proof.
  unfold blockOk, fieldAfterExtraction. destruct media as [m|].
  - intros (data & now & uuid & -> & ->). split.
    + exists data, now, uuid. rewrite lookup_insert_eq.
      split; [reflexivity|]. simpl. tauto.
    + intros k Hk. now rewrite lookup_insert_ne.
  - intros [-> ->]. split; [reflexivity|]. reflexivity.
Qed.

Lemma fieldAfterExtraction_mono (evs evs' : Trace)
    (media : option DownloadableMessage)
    (before before' field field' : option Value) :
  fieldAfterExtraction evs media before field ->
  (forall e, In e evs -> In e evs') -> field' = field -> before = before' ->
  fieldAfterExtraction evs' media before' field'.
Proof.
  unfold fieldAfterExtraction. intros H Hsub -> <-. destruct media as [m|].
  - destruct H as (data & now & uuid & H1 & H2 & H3).
    exists data, now, uuid. auto.
  - exact H.
Qed.

End Blocks.

Section Chain.
Context {L : Lib} {C : Config} {E : Env}.

Ltac block_facts :=
  repeat match goal with
  | H : blockOk _ _ _ _ _ |- _ =>
      let F1 := fresh "Fx" in let F2 := fresh "Ff" in
      let F3 := fresh "Fc" in
      apply blockOk_facts in H as (F1 & F2 & F3)
  | H : blockFailed _ _ _ _ |- _ =>
      let F0 := fresh "Fe" in let F1 := fresh "Fx" in
      let F2 := fresh "Ff" in let F3 := fresh "Fc" in
      apply blockFailed_facts in H as (F0 & F1 & F2 & F3)
  end.

Ltac count_downloads evt :=
  rewrite ?count_app;
  repeat match goal with H : forall m', count _ _ = _ |- _ =>
    rewrite H; clear H end;
  unfold imageOf, stickerOf, videoOf, audioOf, documentOf in *;
  destruct (GetImageMessage (Message evt)),
           (GetStickerMessage (Message evt)),
           (GetVideoMessage (Message evt)),
           (GetAudioMessage (Message evt)),
           (GetDocumentMessage (Message evt)); simpl;
  repeat case_decide; try congruence; try lia.

Ltac failed_leaf evt :=
  rewrite ?emits_emits;
  eexists _, (inl _); split; [reflexivity|]; block_facts;
  rewrite ?forallb_app, ?existsb_app;
  repeat match goal with
  | H : forallb _ _ = _ |- _ => rewrite H; clear H
  | H : existsb _ _ = _ |- _ => rewrite H; clear H
  end;
  split; [reflexivity|];
  split; [intros m'; count_downloads evt|];
  split; [intros img Himg; unfold imageOf in *; rewrite Himg in *;
          count_downloads evt|];
  split; [assumption | reflexivity].

Lemma extractAll_run (evt : evMessage) (body : gmap string Value)
    (w : World) :
  exists evs r,
    extractAll evt body w = (Done r, emits evs w)
    /\ forallb isExtractionEvent evs = true
    /\ (forall m', (count (isDownloadOf m') evs <= 1)%nat)
    /\ (forall img, GetImageMessage (Message evt) = Some img ->
          count (isDownloadOf (ImageMessage img)) evs = 1%nat)
    /\ match r with
       | inl e =>
           (exists msg, e = WebhookError msg)
           /\ existsb isFailedExtraction evs = true
       | inr body' =>
           existsb isFailedExtraction evs = false
           /\ mediaFieldsAfter evt evs body body'
       end.
Proof.
  unfold extractAll. cbv zeta.
  fold (imageOf evt) (stickerOf evt) (videoOf evt) (audioOf evt)
       (documentOf evt).
  unfold mbind, M_bind, bind, mret, M_ret, ret.
  destruct (extractInto_run "image" (imageOf evt) body w)
    as (evs1 & r1 & H1 & P1).
  rewrite H1. destruct r1 as [e|body1]; [failed_leaf evt|].
  destruct (extractInto_run "sticker" (stickerOf evt) body1 (emits evs1 w))
    as (evs2 & r2 & H2 & P2).
  rewrite H2. destruct r2 as [e|body2]; [failed_leaf evt|].
  destruct (extractInto_run "video" (videoOf evt) body2
              (emits evs2 (emits evs1 w))) as (evs3 & r3 & H3 & P3).
  rewrite H3. destruct r3 as [e|body3]; [failed_leaf evt|].
  destruct (extractInto_run "audio" (audioOf evt) body3
              (emits evs3 (emits evs2 (emits evs1 w))))
    as (evs4 & r4 & H4 & P4).
  rewrite H4. destruct r4 as [e|body4]; [failed_leaf evt|].
  destruct (extractInto_run "document" (documentOf evt) body4
              (emits evs4 (emits evs3 (emits evs2 (emits evs1 w)))))
    as (evs5 & r5 & H5 & P5).
  rewrite H5. destruct r5 as [e|body5]; [failed_leaf evt|].
  rewrite ?emits_emits.
  eexists _, (inr _). split; [reflexivity|].
  pose proof (blockOk_field _ _ _ _ _ P1) as [G1 K1].
  pose proof (blockOk_field _ _ _ _ _ P2) as [G2 K2].
  pose proof (blockOk_field _ _ _ _ _ P3) as [G3 K3].
  pose proof (blockOk_field _ _ _ _ _ P4) as [G4 K4].
  pose proof (blockOk_field _ _ _ _ _ P5) as [G5 K5].
  block_facts.
  rewrite ?forallb_app, ?existsb_app.
  repeat match goal with
  | H : forallb _ _ = _ |- _ => rewrite H; clear H
  | H : existsb _ _ = _ |- _ => rewrite H; clear H
  end.
  split; [reflexivity|].
  split; [intros m'; count_downloads evt|].
  split; [intros img Himg; unfold imageOf in *; rewrite Himg in *;
          count_downloads evt|].
  split; [reflexivity|].
  unfold mediaFieldsAfter. repeat split.
  - eapply fieldAfterExtraction_mono; [exact G1| | |reflexivity].
    + intros x Hx. rewrite !in_app_iff. tauto.
    + rewrite K5, K4, K3, K2 by discriminate. reflexivity.
  - eapply fieldAfterExtraction_mono; [exact G2| | |].
    + intros x Hx. rewrite !in_app_iff. tauto.
    + rewrite K5, K4, K3 by discriminate. reflexivity.
    + rewrite K1 by discriminate. reflexivity.
  - eapply fieldAfterExtraction_mono; [exact G3| | |].
    + intros x Hx. rewrite !in_app_iff. tauto.
    + rewrite K5, K4 by discriminate. reflexivity.
    + rewrite K2, K1 by discriminate. reflexivity.
  - eapply fieldAfterExtraction_mono; [exact G4| | |].
    + intros x Hx. rewrite !in_app_iff. tauto.
    + rewrite K5 by discriminate. reflexivity.
    + rewrite K3, K2, K1 by discriminate. reflexivity.
  - eapply fieldAfterExtraction_mono; [exact G5| | |].
    + intros x Hx. rewrite !in_app_iff. tauto.
    + reflexivity.
    + rewrite K4, K3, K2, K1 by discriminate. reflexivity.
  - intros k ? ? ? ? ?. rewrite K5, K4, K3, K2, K1 by assumption.
    reflexivity.
Qed.

End Chain.

Section Forwarders.
Context {L : Lib} {C : Config} {E : Env}.

Lemma postBody_run (body : gmap string Value) (w : World) :
  exists evs r,
    postBody body w = (Done r, emits evs w) /\ postOutcome body r evs.
Proof.
  unfold postBody, postOutcome.
  destruct (json_Marshal body) as [marshalled|err].
  - destruct (http_NewRequest_err "POST" WhatsappWebhook) as [err|].
    + eexists [], _. rewrite emits_nil. split; [reflexivity|]. auto.
    + munfold. cbv zeta. fold (webhookRequest marshalled).
      destruct (client_Do_result (trace w) (webhookRequest marshalled))
        as [resp|err] eqn:Hdo.
      * eexists _, _. rewrite emit_emits. split; [reflexivity|].
        exists (Ok resp). auto.
      * eexists _, _. rewrite emit_emits. split; [reflexivity|].
        exists (Err err). auto.
  - eexists [], _. rewrite emits_nil. split; [reflexivity|]. auto.
Qed.

Lemma forwardReceipt_run (evt : evReceipt) (w : World) :
  exists posts r,
    forwardReceipt evt w
    = (Done r,
       emits (posts ++ [EvLog logrus LInfo "Forwarding receipt to webhook:"])
             w)
    /\ postOutcome (receiptBody evt) r posts.
Proof.
  unfold forwardReceipt. munfold.
  destruct (postBody_run (receiptBody evt)
              (emit (EvLog logrus LInfo "Forwarding receipt to webhook:") w))
    as (posts & r & Hrun & H).
  exists posts, r. rewrite Hrun, emit_emits, emits_emits. auto.
Qed.

Lemma forwardToWebhook_run (evt : evMessage) (w : World) :
  exists evs r,
    forwardToWebhook evt w = (Done r, emits evs w) /\ webhookRun evt r evs.
Proof.
  unfold forwardToWebhook. munfold.
  set (w1 := emit (EvLog logrus LInfo "Forwarding event to webhook:") w).
  destruct (extractAll_run evt (webhookBody evt) w1)
    as (evs_x & rx & Hx & Fx & Fc & Fi & H).
  rewrite Hx. destruct rx as [e|body].
  - destruct H as [[msg ->] Hfail].
    eexists _, _. subst w1. rewrite emit_emits, emits_emits.
    split; [reflexivity|].
    exists evs_x. repeat split; try assumption.
    left. exists msg. auto.
  - destruct H as [Hok Hfields].
    destruct (postBody_run body (emits evs_x w1)) as (posts & r & Hp & Ho).
    rewrite Hp. subst w1. rewrite emit_emits, !emits_emits.
    eexists _, r. split; [reflexivity|].
    exists evs_x. repeat split; try assumption.
    right. exists body, posts. rewrite <- app_assoc. auto.
Qed.

End Forwarders.

Lemma filter_disjoint (p q : IOEvent -> bool) (l : Trace) :
  forallb p l = true -> (forall e, p e = true -> q e = false) ->
  List.filter q l = [].
Proof.
  intros Hall Hpq. induction l as [|e l IH]; [reflexivity|].
  simpl in Hall. apply andb_prop in Hall as [He Hl]. simpl.
  rewrite (Hpq e He). auto.
Qed.

Lemma extraction_no_HttpDo (l : Trace) :
  forallb isExtractionEvent l = true -> List.filter isHttpDo l = [].
Proof.
  intros H. apply (filter_disjoint _ _ _ H). now intros [].
Qed.

Lemma extraction_no_SendMessage (l : Trace) :
  forallb isExtractionEvent l = true -> List.filter isSendMessage l = [].
Proof.
  intros H. apply (filter_disjoint _ _ _ H). now intros [].
Qed.

Lemma filter_nil_not_In (p : IOEvent -> bool) (l : Trace) (e : IOEvent) :
  List.filter p l = [] -> p e = true -> ~ In e l.
Proof.
  intros Hnil Hp Hin.
  assert (Hf : In e (List.filter p l)) by (apply filter_In; auto).
  rewrite Hnil in Hf. exact Hf.
Qed.

Section Delivery.
Context {L : Lib} {C : Config} {E : Env}.

Lemma postOutcome_facts (body : gmap string Value) (r : option pkgError)
    (posts : Trace) :
  postOutcome body r posts ->
  List.filter isHttpDo posts = posts
  /\ existsb isFailedExtraction posts = false
  /\ List.filter isSendMessage posts = []
  /\ (forall m', count (isDownloadOf m') posts = 0%nat)
  /\ (forall t req res, In (EvHttpDo t req res) posts ->
        json_Marshal body = Ok (Body req))
  /\ deliveryShape r posts.
Proof.
  unfold postOutcome, deliveryShape.
  destruct (json_Marshal body) as [marshalled|err] eqn:Hm.
  - destruct (http_NewRequest_err "POST" WhatsappWebhook) as [err|] eqn:Hn.
    + intros [-> ->]. repeat split; try reflexivity; eauto.
      intros t req res [].
    + intros (res & -> & ->). repeat split; try reflexivity.
      * intros t req res' [Heq|[]]. injection Heq as _ <- _. reflexivity.
      * destruct res as [resp|err].
        -- exists body, (webhookRequest marshalled), resp.
           repeat split; try assumption; try reflexivity.
        -- eauto 8.
  - intros [-> ->]. repeat split; try reflexivity; eauto.
    intros t req res [].
Qed.

(** C3.  Each forwarder returns to its caller; every error it returns is a
    [WebhookError]; it sends at most one request per call and never a
    second one after the first; it returns nil exactly when that request
    got a response, whose status is not looked at.  In detail, for the
    body it has built: if marshalling fails, or the request cannot be
    built, the matching [WebhookError] is returned and nothing is sent;
    else the request is sent once, and an error of [client.Do] is returned
    as a [WebhookError] while any response gives nil.  [forwardToWebhook]
    builds no body, and sends nothing, when an extraction has failed. *)
Theorem forwarders_deliver_once (w : World) :
  (forall evt : evReceipt,
     deliversOnce (forwardReceipt evt) w
     /\ exists r,
          fst (forwardReceipt evt w) = Done r
          /\ postOutcome (receiptBody evt) r
               (List.filter isHttpDo (events_of (forwardReceipt evt) w)))
  /\ (forall evt : evMessage,
        deliversOnce (forwardToWebhook evt) w
        /\ exists r,
             fst (forwardToWebhook evt w) = Done r
             /\ let evs := events_of (forwardToWebhook evt) w in
                ((exists msg, r = Some (WebhookError msg))
                 /\ existsb isFailedExtraction evs = true
                 /\ List.filter isHttpDo evs = [])
                \/ (exists body,
                      existsb isFailedExtraction evs = false
                      /\ postOutcome body r (List.filter isHttpDo evs))).
Proof.
  split; intros evt; unfold deliversOnce.
  - destruct (forwardReceipt_run evt w) as (posts & r & Hrun & Ho).
    rewrite (events_of_emits _ _ _ _ Hrun), Hrun.
    pose proof (postOutcome_facts _ _ _ Ho) as (Hp & _ & _ & _ & _ & Hs).
    rewrite List.filter_app, Hp. simpl. rewrite app_nil_r.
    split; exists r; auto.
  - destruct (forwardToWebhook_run evt w) as (evs & r & Hrun & Hw).
    rewrite (events_of_emits _ _ _ _ Hrun), Hrun. cbv zeta.
    destruct Hw as (evs_x & Fx & _ & _ & [(msg & -> & Hf & ->)|H]).
    + rewrite List.filter_app, (extraction_no_HttpDo _ Fx),
        existsb_app, Hf. simpl.
      split; eexists; (split; [reflexivity|]).
      * split; eauto.
      * left. eauto.
    + destruct H as (body & posts & Hok & _ & Ho & ->).
      pose proof (postOutcome_facts _ _ _ Ho)
        as (Hp & Hnf & _ & _ & _ & Hs).
      rewrite !List.filter_app, Hp, (extraction_no_HttpDo _ Fx),
        !existsb_app, Hnf, Hok. simpl. rewrite app_nil_r.
      split; exists r; (split; [reflexivity|]); [exact Hs|].
      right. exists body. auto.
Qed.

End Delivery.

Section Payloads.
Context {L : Lib} {C : Config} {E : Env}.

Lemma mediaFieldsAfter_mono (evt : evMessage) (evs evs' : Trace)
    (body body' : gmap string Value) :
  mediaFieldsAfter evt evs body body' ->
  (forall e, In e evs -> In e evs') ->
  mediaFieldsAfter evt evs' body body'.
Proof.
  unfold mediaFieldsAfter. intros (H1 & H2 & H3 & H4 & H5 & H6) Hsub.
  repeat split;
    try (eapply fieldAfterExtraction_mono; [eassumption|exact Hsub|..];
         reflexivity).
  exact H6.
Qed.

Lemma webhookBody_defaults (evt : evMessage) :
  webhookBody evt !! "image" = Some (VImage (GetImageMessage (Message evt)))
  /\ webhookBody evt !! "sticker"
     = Some (VSticker (GetStickerMessage (Message evt)))
  /\ webhookBody evt !! "video"
     = Some (VVideo (GetVideoMessage (Message evt)))
  /\ webhookBody evt !! "audio"
     = Some (VAudio (GetAudioMessage (Message evt)))
  /\ webhookBody evt !! "document"
     = Some (VDocument (GetDocumentMessage (Message evt))).
Proof.
  unfold webhookBody. cbv zeta.
  repeat split;
    repeat (first [rewrite lookup_insert_eq; reflexivity
                  |rewrite lookup_insert_ne by discriminate]).
Qed.

(** C2.  In the body of [forwardToWebhook] each of the five media fields
    starts as the raw reference of the message.  If an extraction fails
    during the call, the call returns a [WebhookError] and sends no
    request.  Every request that is sent carries the marshalling of a body
    in which the field of each attachment of the message holds the
    descriptor (path, mime type, caption) of a file downloaded and written
    under [PathMedia] during the call, the field of each absent
    attachment is still the raw nil reference, and no other field was
    changed. *)
Theorem forwardToWebhook_media_fields (evt : evMessage) (w : World) :
  let evs := events_of (forwardToWebhook evt) w in
  (webhookBody evt !! "image" = Some (VImage (GetImageMessage (Message evt)))
   /\ webhookBody evt !! "sticker"
      = Some (VSticker (GetStickerMessage (Message evt)))
   /\ webhookBody evt !! "video"
      = Some (VVideo (GetVideoMessage (Message evt)))
   /\ webhookBody evt !! "audio"
      = Some (VAudio (GetAudioMessage (Message evt)))
   /\ webhookBody evt !! "document"
      = Some (VDocument (GetDocumentMessage (Message evt))))
  /\ (existsb isFailedExtraction evs = true ->
      (exists msg,
         fst (forwardToWebhook evt w) = Done (Some (WebhookError msg)))
      /\ List.filter isHttpDo evs = [])
  /\ (forall t req res, In (EvHttpDo t req res) evs ->
      existsb isFailedExtraction evs = false
      /\ exists body,
           json_Marshal body = Ok (Body req)
           /\ mediaFieldsAfter evt evs (webhookBody evt) body).
Proof.
  cbv zeta. split; [apply webhookBody_defaults|].
  destruct (forwardToWebhook_run evt w) as (evs & r & Hrun & Hw).
  rewrite (events_of_emits _ _ _ _ Hrun), Hrun.
  destruct Hw as (evs_x & Fx & _ & _ & [(msg & -> & Hf & ->)|H]).
  - split.
    + intros _. split; [eauto|].
      rewrite List.filter_app, (extraction_no_HttpDo _ Fx). reflexivity.
    + intros t req res Hin. exfalso.
      apply in_app_or in Hin as [Hin|[Hin|[]]]; [|discriminate].
      exact (filter_nil_not_In isHttpDo _ (EvHttpDo t req res)
               (extraction_no_HttpDo _ Fx) eq_refl Hin).
  - destruct H as (body & posts & Hok & Hfields & Ho & ->).
    apply postOutcome_facts in Ho as (_ & Hnf & _ & _ & Hmarshal & _).
    assert (Hnone : existsb isFailedExtraction
                      (posts ++ evs_x
                       ++ [EvLog logrus LInfo "Forwarding event to webhook:"])
                    = false).
    { rewrite !existsb_app, Hnf, Hok. reflexivity. }
    split; [rewrite Hnone; discriminate|].
    intros t req res Hin. split; [exact Hnone|].
    exists body. split.
    + apply in_app_or in Hin as [Hin|Hin]; [eauto|]. exfalso.
      apply in_app_or in Hin as [Hin|[Hin|[]]]; [|discriminate].
      exact (filter_nil_not_In isHttpDo _ (EvHttpDo t req res)
               (extraction_no_HttpDo _ Fx) eq_refl Hin).
    + apply (mediaFieldsAfter_mono _ _ _ _ _ Hfields).
      intros e He. rewrite !in_app_iff. tauto.
Qed.

(** C8.  Every request that [forwardReceipt] sends carries the marshalling
    of a body with exactly the four keys ["source"], ["timestamp"],
    ["type"] and ["ids"], which hold the source string, the timestamp, the
    receipt type and the list of message ids of the event, each unchanged:
    for a receipt that [handler] takes as delivered the type is the
    constant [types.ReceiptTypeDelivered] of the protocol library. *)
Theorem forwardReceipt_payload (evt : evReceipt) (w : World) :
  exists body : gmap string Value,
    dom body = {[ "source"; "timestamp"; "type"; "ids" ]}
    /\ body !! "source" = Some (VString (SourceString (Receipt_Source evt)))
    /\ body !! "timestamp" = Some (VTime (Timestamp evt))
    /\ body !! "type" = Some (VString (Type_ evt))
    /\ body !! "ids" = Some (VStrings (MessageIDs evt))
    /\ (String.eqb (Type_ evt) ReceiptTypeDelivered = true ->
        body !! "type" = Some (VString ReceiptTypeDelivered))
    /\ forall t req res,
         In (EvHttpDo t req res) (events_of (forwardReceipt evt) w) ->
         json_Marshal body = Ok (Body req).
Proof.
  exists (receiptBody evt). split.
  { unfold receiptBody. rewrite !dom_insert_L, dom_empty_L. set_solver. }
  split; [reflexivity|]. split; [reflexivity|]. split; [reflexivity|].
  split; [reflexivity|]. split.
  { intros H. apply String.eqb_eq in H. now rewrite <- H. }
  destruct (forwardReceipt_run evt w) as (posts & r & Hrun & Ho).
  rewrite (events_of_emits _ _ _ _ Hrun).
  apply postOutcome_facts in Ho as (_ & _ & _ & _ & Hmarshal & _).
  intros t req res Hin.
  apply in_app_or in Hin as [Hin|[Hin|[]]]; [eauto|discriminate].
Qed.

End Payloads.

Section Handler.
Context {L : Lib} {C : Config} {E : Env}.

Lemma ExtractMedia_run_facts (root : string) (m : DownloadableMessage)
    (w : World) :
  exists evs r,
    ExtractMedia root (Some m) w = (Done r, emits evs w)
    /\ forallb isExtractionEvent evs = true
    /\ forall m', count (isDownloadOf m') evs
                  = if decide (Some m = Some m') then 1%nat else 0%nat.
Proof.
  destruct (ExtractMedia_run root m w) as (evs & em & err & Hrun & H).
  exists evs, (em, err). split; [exact Hrun|].
  destruct err as [e|].
  - apply extractionFailed_facts in H as (H1 & _ & _ & H4). auto.
  - destruct H as (data & now & uuid & _ & ->).
    split; [reflexivity|]. intros m'. unfold count. simpl.
    case_bool_decide; case_decide; simpl; congruence.
Qed.

Lemma webhookRun_facts (evt : evMessage) (r : option pkgError)
    (evs : Trace) :
  webhookRun evt r evs ->
  List.filter isSendMessage evs = []
  /\ (forall m', (count (isDownloadOf m') evs <= 1)%nat)
  /\ (forall img, GetImageMessage (Message evt) = Some img ->
        count (isDownloadOf (ImageMessage img)) evs = 1%nat).
Proof.
  intros (evs_x & Fx & Fc & Fi & [(msg & _ & _ & ->)|H]).
  - rewrite List.filter_app, (extraction_no_SendMessage _ Fx).
    repeat split; [|intros img Himg]; intros; rewrite count_app;
      [specialize (Fc m')|rewrite (Fi img Himg)]; unfold count in *; simpl; lia.
  - destruct H as (body & posts & _ & _ & Ho & ->).
    apply postOutcome_facts in Ho as (_ & _ & Hs & Hc & _ & _).
    rewrite !List.filter_app, Hs, (extraction_no_SendMessage _ Fx).
    repeat split; [|intros img Himg]; intros; rewrite !count_app, Hc;
      [specialize (Fc m')|rewrite (Fi img Himg)]; unfold count in *; simpl; lia.
Qed.

Lemma downloadImage_run (evt : evMessage) (w : World) :
  exists evs,
    downloadImage evt w = (Done tt, emits evs w)
    /\ List.filter isSendMessage evs = []
    /\ forall m', count (isDownloadOf m') evs
                  = if decide (imageOf evt = Some m') then 1%nat else 0%nat.
Proof.
  unfold downloadImage, imageOf.
  destruct (GetImageMessage (Message evt)) as [img|].
  - destruct (ExtractMedia_run_facts PathStorages (ImageMessage img) w)
      as (evs & [em err] & Hrun & Fx & Fc).
    unfold mbind, M_bind, bind. rewrite Hrun. munfold.
    destruct err as [e|]; eexists; rewrite emit_emits, emits_emits;
      (split; [reflexivity|]); simpl;
      rewrite (extraction_no_SendMessage _ Fx);
      (split; [reflexivity|]); intros m'; rewrite <- Fc; reflexivity.
  - exists []. rewrite emits_nil. repeat split.
Qed.

Lemma autoReply_run (evt : evMessage) (w : World) :
  autoReply evt w
  = (Done tt,
     emits (if autoReplyGuard evt
            then [EvSendMessage (Sender (Info_Source (Info evt)))
                                WhatsappAutoReplyMessage]
            else []) w).
Proof.
  unfold autoReply. destruct (autoReplyGuard evt).
  - reflexivity.
  - now rewrite emits_nil.
Qed.

Lemma forwardMessage_run (evt : evMessage) (w : World) :
  exists evs,
    forwardMessage evt w = (Done tt, emits evs w)
    /\ List.filter isSendMessage evs = []
    /\ (forall m', (count (isDownloadOf m') evs <= 1)%nat)
    /\ (webhookGuard evt = false -> evs = [])
    /\ (forall img, GetImageMessage (Message evt) = Some img ->
          count (isDownloadOf (ImageMessage img)) evs
          = if webhookGuard evt then 1%nat else 0%nat).
Proof.
  unfold forwardMessage. destruct (webhookGuard evt).
  - destruct (forwardToWebhook_run evt w) as (evs & r & Hrun & Hw).
    apply webhookRun_facts in Hw as (Hs & Hc & Hi).
    munfold. rewrite Hrun. destruct r as [e|].
    + eexists. rewrite emit_emits, emits_emits. split; [reflexivity|].
      simpl. repeat split; auto; discriminate.
    + exists evs. repeat split; auto; discriminate.
  - exists []. rewrite emits_nil. repeat split; auto.
Qed.

Lemma handlerMessage_run (evt : evMessage) (w : World) :
  exists evs,
    handler (EvtMessage evt) w = (Done tt, emits evs w)
    /\ List.filter isSendMessage evs
       = (if autoReplyGuard evt
          then [EvSendMessage (Sender (Info_Source (Info evt)))
                              WhatsappAutoReplyMessage]
          else [])
    /\ (forall img, GetImageMessage (Message evt) = Some img ->
          count (isDownloadOf (ImageMessage img)) evs
          = if webhookGuard evt then 2%nat else 1%nat)
    /\ (forall m', (forall img, m' <> ImageMessage img) ->
          (count (isDownloadOf m') evs <= 1)%nat
          /\ (webhookGuard evt = false ->
              count (isDownloadOf m') evs = 0%nat)).
Proof.
  unfold handler. munfold.
  set (w1 := emit _ w).
  destruct (downloadImage_run evt w1) as (evs1 & H1 & S1 & C1).
  rewrite H1, autoReply_run.
  destruct (forwardMessage_run evt
              (emits (if autoReplyGuard evt
                      then [EvSendMessage (Sender (Info_Source (Info evt)))
                                          WhatsappAutoReplyMessage]
                      else []) (emits evs1 w1)))
    as (evs3 & H3 & S3 & C3 & N3 & I3).
  rewrite H3. subst w1. rewrite emit_emits, !emits_emits.
  eexists. split; [reflexivity|].
  rewrite !List.filter_app, S1, S3. split.
  { destruct (autoReplyGuard evt); reflexivity. }
  assert (Hreply : forall m',
            count (isDownloadOf m')
              (if autoReplyGuard evt
               then [EvSendMessage (Sender (Info_Source (Info evt)))
                                   WhatsappAutoReplyMessage]
               else []) = 0%nat).
  { intros m'. destruct (autoReplyGuard evt); reflexivity. }
  split.
  - intros img Himg. rewrite !count_app, Hreply, C1, (I3 img Himg).
    unfold imageOf. rewrite Himg. simpl.
    rewrite decide_True by reflexivity.
    destruct (webhookGuard evt); reflexivity.
  - intros m' Hm'. rewrite !count_app, Hreply, C1.
    assert (Hno : imageOf evt <> Some m').
    { unfold imageOf. destruct (GetImageMessage (Message evt)) as [img0|];
        simpl; [|discriminate].
      intros Heq. injection Heq as <-. now apply (Hm' img0). }
    rewrite decide_False by exact Hno. split.
    + specialize (C3 m'). unfold count in *. simpl. lia.
    + intros Hg. rewrite (N3 Hg). reflexivity.
Qed.

End Handler.

Section Dispatcher.
Context {L : Lib} {C : Config} {E : Env}.

(** C6.  While [handler] handles a message, a message is sent through the
    client exactly when the configured auto-reply text is not empty, the
    chat address is not a group address and the source string does not
    contain ["broadcast"]; it is then the configured text, sent once to the
    sender of the event.  For a group chat or a broadcast source nothing
    is sent, whatever the configured text. *)
Theorem autoReply_only_for_direct_messages (evt : evMessage) (w : World) :
  let sent :=
    List.filter isSendMessage (events_of (handler (EvtMessage evt)) w) in
  let group := isGroupJid (JID_String (Chat (Info_Source (Info evt)))) in
  let broadcast :=
    Contains (SourceString (Info_Source (Info evt))) "broadcast" in
  (group = true \/ broadcast = true -> sent = [])
  /\ sent = (if negb (String.eqb WhatsappAutoReplyMessage "")
                && negb group && negb broadcast
             then [EvSendMessage (Sender (Info_Source (Info evt)))
                                 WhatsappAutoReplyMessage]
             else []).
Proof.
  cbv zeta.
  destruct (handlerMessage_run evt w) as (evs & Hrun & Hsent & _).
  rewrite (events_of_emits _ _ _ _ Hrun), Hsent. unfold autoReplyGuard.
  split; [|reflexivity].
  intros [-> | ->]; simpl; rewrite ?andb_false_r; reflexivity.
Qed.

(** C4.  While [handler] handles a message, the image of the message is
    downloaded once by [handler] itself and once more by
    [forwardToWebhook] when the message is forwarded, twice in all; any
    other attachment is downloaded at most once, and not at all when the
    message is not forwarded. *)
Theorem attachments_downloaded_per_event (evt : evMessage) (w : World) :
  let evs := events_of (handler (EvtMessage evt)) w in
  (forall img, GetImageMessage (Message evt) = Some img ->
     count (isDownloadOf (ImageMessage img)) evs
     = if webhookGuard evt then 2%nat else 1%nat)
  /\ (forall m', (forall img, m' <> ImageMessage img) ->
        (count (isDownloadOf m') evs <= 1)%nat
        /\ (webhookGuard evt = false -> count (isDownloadOf m') evs = 0%nat)).
Proof.
  cbv zeta.
  destruct (handlerMessage_run evt w) as (evs & Hrun & _ & Himg & Hother).
  rewrite (events_of_emits _ _ _ _ Hrun). auto.
Qed.







End Dispatcher.

(* ===================================================================== *)
(** * The statements at concrete events                                   *)
(* ===================================================================== *)

Lemma forwardToWebhook_media_fields_witness :
  (exists msg,
     fst (forwardToWebhook (L := sampleLib) (C := sampleConfig)
            (E := offlineEnv) imageEvent world0)
     = Done (Some (WebhookError msg)))
  /\ List.filter isHttpDo
       (events_of (forwardToWebhook (L := sampleLib) (C := sampleConfig)
                     (E := offlineEnv) imageEvent) world0) = []
  /\ exists body,
       json_Marshal (Lib := sampleLib) body = Ok []
       /\ mediaFieldsAfter (L := sampleLib) (C := sampleConfig) imageEvent
            (events_of (forwardToWebhook (L := sampleLib) (C := sampleConfig)
                          (E := sampleEnv 200) imageEvent) world0)
            (webhookBody (L := sampleLib) imageEvent) body.
Proof.
  split; [|split].
  - apply (proj1 (proj2 (forwardToWebhook_media_fields
                           (L := sampleLib) (C := sampleConfig)
                           (E := offlineEnv) imageEvent world0))).
    vm_compute. reflexivity.
  - apply (proj1 (proj2 (forwardToWebhook_media_fields
                           (L := sampleLib) (C := sampleConfig)
                           (E := offlineEnv) imageEvent world0))).
    vm_compute. reflexivity.
  - apply (proj2 (proj2 (forwardToWebhook_media_fields
                           (L := sampleLib) (C := sampleConfig)
                           (E := sampleEnv 200) imageEvent world0))
             10 (webhookRequest (C := sampleConfig) [])
             (Ok (mkResponse 200))).
    vm_compute. left. reflexivity.
Defined.

(** C2, as stated, at a message with one image: the body handed to the
    marshaller holds under ["image"] the whole descriptor of the written
    file, and not its path. *)
Lemma forwardToWebhook_field_is_descriptor :
  match extractAll (L := sampleLib) (C := sampleConfig) (E := sampleEnv 200)
          imageEvent (webhookBody (L := sampleLib) imageEvent)
          (emit (EvLog logrus LInfo "Forwarding event to webhook:") world0)
  with
  | (Done (inr body), w') =>
      postBody (L := sampleLib) (C := sampleConfig) (E := sampleEnv 200)
        body w'
      = forwardToWebhook (L := sampleLib) (C := sampleConfig)
          (E := sampleEnv 200) imageEvent world0
      /\ fst (forwardToWebhook (L := sampleLib) (C := sampleConfig)
                (E := sampleEnv 200) imageEvent world0) = Done None
      /\ body !! "image"
         = Some (VExtractedMedia
                   (mkExtractedMedia
                      "statics/media/1700000002-123e4567-e89b-12d3-a456-426614174000.jpeg"
                      "image/jpeg" "hi"))
      /\ body !! "image"
         <> Some (VString
                    "statics/media/1700000002-123e4567-e89b-12d3-a456-426614174000.jpeg")
  | _ => False
  end.
Proof.
  vm_compute. repeat split. discriminate.
Qed.

(** C3, as stated, at an endpoint that answers with status 500: the
    request is sent and nil is returned. *)
Lemma rejected_delivery_returns_nil :
  forwardReceipt (L := sampleLib) (C := sampleConfig) (E := sampleEnv 500)
    deliveredReceipt world0
  = (Done None,
     emits [EvHttpDo 10 (webhookRequest (C := sampleConfig) [])
                     (Ok (mkResponse 500));
            EvLog logrus LInfo "Forwarding receipt to webhook:"] world0)
  /\ fst (forwardToWebhook (L := sampleLib) (C := sampleConfig)
            (E := sampleEnv 500) textEvent world0) = Done None
  /\ List.filter isHttpDo
       (events_of (forwardToWebhook (L := sampleLib) (C := sampleConfig)
                     (E := sampleEnv 500) textEvent) world0)
     = [EvHttpDo 10 (webhookRequest (C := sampleConfig) [])
                 (Ok (mkResponse 500))].
Proof. repeat split; vm_compute; reflexivity. Qed.

Lemma autoReply_only_for_direct_messages_witness :
  List.filter isSendMessage
    (events_of (handler (L := sampleLib) (C := sampleConfig)
                  (E := sampleEnv 200) (EvtMessage groupEvent)) world0) = [].
Proof.
  apply (proj1 (autoReply_only_for_direct_messages
                  (L := sampleLib) (C := sampleConfig) (E := sampleEnv 200)
                  groupEvent world0)).
  left. reflexivity.
Defined.

Lemma attachments_downloaded_per_event_witness :
  count (isDownloadOf (ImageMessage sampleImage))
    (events_of (handler (L := sampleLib) (C := sampleConfig)
                  (E := sampleEnv 200) (EvtMessage imageEvent)) world0)
  = 2%nat.
Proof.
  exact (proj1 (attachments_downloaded_per_event
                  (L := sampleLib) (C := sampleConfig) (E := sampleEnv 200)
                  imageEvent world0) sampleImage eq_refl).
Defined.

(** C4, as stated, at a forwarded message with one image: the image is
    downloaded twice and written twice, under the storage root and under
    the media root. *)
Lemma image_downloaded_twice :
  List.filter (fun e => isDownloadOf (ImageMessage sampleImage) e
                        || isWriteFile e)
    (events_of (handler (L := sampleLib) (C := sampleConfig)
                  (E := sampleEnv 200) (EvtMessage imageEvent)) world0)
  = [EvWriteFile
       "statics/media/1700000009-123e4567-e89b-12d3-a456-426614174000.jpeg"
       [Byte.x89; Byte.x50] 384 None;
     EvDownload (ImageMessage sampleImage) (Ok [Byte.x89; Byte.x50]);
     EvWriteFile
       "storages/1700000002-123e4567-e89b-12d3-a456-426614174000.jpeg"
       [Byte.x89; Byte.x50] 384 None;
     EvDownload (ImageMessage sampleImage) (Ok [Byte.x89; Byte.x50])]
  /\ ~ (count (isDownloadOf (ImageMessage sampleImage))
          (events_of (handler (L := sampleLib) (C := sampleConfig)
                        (E := sampleEnv 200) (EvtMessage imageEvent)) world0)
        <= 1)%nat.
Proof.
  split; [vm_compute; reflexivity|].
  vm_compute. intros H. apply (Nat.nle_succ_diag_l 1). exact H.
Qed.


Lemma handler_historySync_done {L : Lib} {C : Config} {E : Env}
    (evt : evHistorySync) (w : World) :
  fst (handler (EvtHistorySync evt) w) = Done tt.
Proof.
  unfold handler, atomic_AddInt32_historySyncID, get_startupTime,
    os_OpenFile, enc_Encode, file_Close. munfold. cbv zeta. simpl.
  destruct (os_OpenFile_result _ _); [reflexivity|]. simpl.
  destruct (enc_Encode_result _ _ _); reflexivity.
Qed.




Lemma forwardReceipt_payload_witness :
  exists body : gmap string Value,
    body !! "type" = Some (VString (ReceiptTypeDelivered (Lib := sampleLib)))
    /\ body !! "ids" = Some (VStrings ["ABC"])
    /\ json_Marshal (Lib := sampleLib) body
       = Ok (Body (webhookRequest (C := sampleConfig) [])).
Proof.
  destruct (forwardReceipt_payload (L := sampleLib) (C := sampleConfig)
              (E := sampleEnv 200) deliveredReceipt world0)
    as (body & _ & _ & _ & _ & Hids & Hdelivered & Hposted).
  exists body. split; [apply Hdelivered; reflexivity|].
  split; [exact Hids|].
  apply (Hposted 10 (webhookRequest (C := sampleConfig) [])
                 (Ok (mkResponse 200))).
  vm_compute. left. reflexivity.
Defined.

(** C8, as stated, at a delivery receipt for the message ["ABC"]: the
    receipt is forwarded, and the type in its body is the empty string,
    the value of [types.ReceiptTypeDelivered]. *)
Lemma delivered_receipt_type_is_empty :
  String.eqb (Type_ deliveredReceipt) (ReceiptTypeDelivered (Lib := sampleLib))
  = true
  /\ handler (L := sampleLib) (C := sampleConfig) (E := sampleEnv 200)
       (EvtReceipt deliveredReceipt) world0
     = (Done tt,
        emits [EvHttpDo 10 (webhookRequest (C := sampleConfig) [])
                        (Ok (mkResponse 200));
               EvLog logrus LInfo "Forwarding receipt to webhook:";
               EvLog waLog_Main LInfo "%s was delivered to %s at %s"]
              world0)
  /\ receiptBody (L := sampleLib) deliveredReceipt !! "ids"
     = Some (VStrings ["ABC"])
  /\ receiptBody (L := sampleLib) deliveredReceipt !! "type"
     = Some (VString "")
  /\ receiptBody (L := sampleLib) deliveredReceipt !! "type"
     <> Some (VString "delivered").
Proof.
  repeat split; try (vm_compute; reflexivity). vm_compute. discriminate.
Qed.

(* ===================================================================== *)
(** * Phone numbers and platform names                                    *)
(* ===================================================================== *)

Lemma Contains_append_r (p q sub : string) :
  Contains q sub = true -> Contains (p +:+ q) sub = true.
Proof.
  intros H. induction p as [|c p IH]; [exact H|].
  rewrite append_cons. simpl. rewrite IH. apply orb_true_r.
Qed.

Lemma Contains_at_false (s : string) (c : ascii) (s' : string) :
  Contains (String c s') "@" = false ->
  Ascii.eqb c "@" = false /\ Contains s' "@" = false.
Proof.
  simpl. intros H. apply orb_false_iff in H as [H1 H2].
  split; [|exact H2]. destruct (Ascii.eqb c "@"); [|reflexivity].
  destruct s'; discriminate.
Qed.

(** In a string without ['@'] no occurrence of a pattern that starts
    with ['@'] can begin. *)
Lemma Contains_after_no_at (s t sub : string) :
  Contains s "@" = false ->
  Contains (s +:+ t) (String "@" sub) = Contains t (String "@" sub).
Proof.
  induction s as [|c s IH]; intros H; [reflexivity|].
  apply (Contains_at_false s) in H as [Hc Hs].
  rewrite append_cons.
  change (Contains (String c (s +:+ t)) (String "@" sub))
    with (Ascii.eqb c "@" && HasPrefix (s +:+ t) sub
          || Contains (s +:+ t) (String "@" sub)).
  rewrite Hc. simpl. now apply IH.
Qed.

Lemma length_append (s t : string) :
  String.length (s +:+ t) = (String.length s + String.length t)%nat.
Proof.
  induction s as [|c s IH]; [reflexivity|].
  rewrite append_cons. simpl. now rewrite IH.
Qed.

(** X1.  [SanitizePhone] leaves a nil pointer, an empty string and a
    string with ['@'] as they are, and gives every other string a suffix
    that contains ['@']: the result of a non-empty phone always contains
    ['@'], and sanitizing twice is sanitizing once. *)
Theorem SanitizePhone_idempotent (phone : option string) :
  SanitizePhone (SanitizePhone phone) = SanitizePhone phone
  /\ (forall p, phone = Some p -> p <> "" ->
        exists p', SanitizePhone phone = Some p'
                   /\ Contains p' "@" = true)
  /\ (forall p, phone = Some p -> (p = "" \/ Contains p "@" = true) ->
        SanitizePhone phone = phone).
Proof.
  assert (Hfix : forall p, Contains p "@" = true ->
                           SanitizePhone (Some p) = Some p).
  { intros p Hp. unfold SanitizePhone. rewrite Hp.
    now rewrite andb_false_r. }
  destruct phone as [p|]; [|repeat split; intros; discriminate].
  assert (Hres : exists p', SanitizePhone (Some p) = Some p'
                            /\ (p = "" \/ Contains p' "@" = true)
                            /\ (p = "" -> p' = "")).
  { unfold SanitizePhone.
    destruct p as [|c p]; [exists ""; auto|].
    destruct (Contains (String c p) "@") eqn:Hat.
    - rewrite andb_false_r. exists (String c p).
      split; [reflexivity|]. split; [now right|discriminate].
    - rewrite andb_true_r.
      replace (0 <? len (String c p)) with true
        by (symmetry; apply Z.ltb_lt; unfold len; simpl; lia).
      destruct (len (String c p) <=? 15); eexists;
        (split; [reflexivity|]);
        (split; [right; now apply Contains_append_r|discriminate]). }
  destruct Hres as (p' & Hp' & Hat & Hempty).
  split; [|split].
  - rewrite Hp'. destruct Hat as [-> | Hat].
    + rewrite (Hempty eq_refl). reflexivity.
    + now apply Hfix.
  - intros q [= <-] Hq. exists p'. split; [exact Hp'|].
    destruct Hat; [contradiction|assumption].
  - intros q [= <-] [-> | Hq]; [reflexivity|now apply Hfix].
Qed.

Lemma SanitizePhone_idempotent_witness :
  SanitizePhone (Some "6281234567890") = Some "6281234567890@s.whatsapp.net"
  /\ exists p', SanitizePhone (Some "6281234567890") = Some p'
                /\ Contains p' "@" = true.
Proof.
  split; [reflexivity|].
  apply (proj1 (proj2 (SanitizePhone_idempotent (Some "6281234567890")))
               "6281234567890" eq_refl).
  discriminate.
Defined.

(** X2.  A non-empty phone without ['@'] becomes a group address exactly
    when it is longer than 15 bytes: up to 15 bytes it gets the user
    suffix and [isGroupJid] rejects the result, beyond that it gets the
    group suffix and [isGroupJid] accepts the result. *)
Theorem SanitizePhone_group_by_length (p : string) :
  p <> "" -> Contains p "@" = false ->
  SanitizePhone (Some p)
  = Some (p +:+ (if len p <=? 15 then "@s.whatsapp.net" else "@g.us"))
  /\ (forall p', SanitizePhone (Some p) = Some p' ->
        isGroupJid p' = negb (len p <=? 15)).
Proof.
  intros Hne Hat.
  assert (Hs : SanitizePhone (Some p)
               = Some (p +:+ (if len p <=? 15 then "@s.whatsapp.net"
                              else "@g.us"))).
  { unfold SanitizePhone. rewrite Hat.
    replace (0 <? len p) with true.
    - simpl. destruct (len p <=? 15); reflexivity.
    - symmetry. apply Z.ltb_lt. unfold len.
      destruct p; [congruence|simpl; lia]. }
  split; [exact Hs|].
  intros p' Hp'. rewrite Hs in Hp'. injection Hp' as <-.
  unfold isGroupJid. rewrite (Contains_after_no_at p _ "g.us" Hat).
  destruct (len p <=? 15); reflexivity.
Qed.

Lemma SanitizePhone_group_by_length_witness :
  SanitizePhone (Some "120363041234567890")
  = Some "120363041234567890@g.us"
  /\ isGroupJid "120363041234567890@g.us" = true.
Proof.
  destruct (SanitizePhone_group_by_length "120363041234567890")
    as [Hs Hg]; [discriminate|reflexivity|].
  split; [exact Hs|]. exact (Hg _ Hs).
Defined.

(** X3.  [GetPlatformName] gives ["UNKNOWN"] exactly for the identifiers
    outside 1..13, and different identifiers within 1..13 have different
    names. *)
Theorem GetPlatformName_unknown_and_injective (a b : Z) :
  (GetPlatformName a = "UNKNOWN" <-> a < 1 \/ 13 < a)
  /\ (1 <= a <= 13 -> 1 <= b <= 13 ->
      GetPlatformName a = GetPlatformName b -> a = b).
Proof.
  assert (Hout : forall d, d < 1 \/ 13 < d -> GetPlatformName d = "UNKNOWN").
  { intros d Hd. destruct d as [|d|d]; [reflexivity| |reflexivity].
    do 5 (try destruct d as [d|d|]); try reflexivity; lia. }
  assert (Hin : forall d, 1 <= d <= 13 ->
                  d = 1 \/ d = 2 \/ d = 3 \/ d = 4 \/ d = 5 \/ d = 6 \/ d = 7
                  \/ d = 8 \/ d = 9 \/ d = 10 \/ d = 11 \/ d = 12 \/ d = 13)
    by (intros; lia).
  split.
  - split; [|apply Hout].
    intros Hu. destruct (Z_lt_dec a 1) as [|Hge]; [now left|].
    destruct (Z_lt_dec 13 a) as [|Hle]; [now right|]. exfalso.
    assert (Ha : 1 <= a <= 13) by lia.
    apply Hin in Ha.
    repeat (destruct Ha as [-> | Ha]; [discriminate|]). subst a.
    discriminate.
  - intros Ha Hb. apply Hin in Ha. apply Hin in Hb.
    repeat (destruct Ha as [-> | Ha]);
      try subst a;
      repeat (destruct Hb as [-> | Hb]);
      try subst b; intros Heq; try reflexivity; discriminate.
Qed.

Lemma GetPlatformName_unknown_and_injective_witness :
  GetPlatformName 14 = "UNKNOWN" /\ GetPlatformName (-1) = "UNKNOWN"
  /\ GetPlatformName 13 = "TCL_TV".
Proof.
  split; [|split; [|reflexivity]].
  - apply (proj1 (GetPlatformName_unknown_and_injective 14 0)). lia.
  - apply (proj1 (GetPlatformName_unknown_and_injective (-1) 0)). lia.
Defined.

(* ===================================================================== *)
(** * More on [ParseJID] and [extractPhoneNumber]                         *)
(* ===================================================================== *)

(** X4.  When [ParseJID] returns, either it returns no error and has done
    nothing, or it returns [ErrInvalidJID], the only error it has, after
    printing exactly one line. *)
Theorem ParseJID_error_is_printed {L : Lib} (arg : string) (w w' : World)
    (jid : JID) (err : option pkgError) :
  ParseJID arg w = (Done (jid, err), w') ->
  match err with
  | None => w' = w
  | Some e =>
      e = ErrInvalidJID
      /\ exists format, w' = emit (EvLog fmt_Printf LInfo format) w
  end.
Proof.
  unfold ParseJID. destruct arg as [|c rest]; [discriminate|].
  destruct (negb (ContainsRune _ "@")).
  - intros [= <- <- <-]. reflexivity.
  - destruct (types_ParseJID _) as [recipient [e|]].
    + intros [= <- <- <-]. eauto.
    + destruct (String.eqb (User recipient) "");
        intros [= <- <- <-]; eauto.
Qed.

Lemma ParseJID_error_is_printed_witness :
  exists format,
    snd (ParseJID (L := sampleLib) "@s.whatsapp.net" world0)
    = emit (EvLog fmt_Printf LInfo format) world0.
Proof.
  exact (proj2 (ParseJID_error_is_printed (L := sampleLib)
                  "@s.whatsapp.net" world0 _ _ (Some ErrInvalidJID)
                  eq_refl)).
Defined.

(** X5.  A JID that [ParseJID] returns without error has an empty user
    exactly when the argument is ["+"]: an address with ['@'] and no user
    is refused, but the lone ['+'] yields the empty user on the default
    server. *)
Theorem ParseJID_empty_user {L : Lib} (arg : string) (w w' : World)
    (jid : JID) :
  ParseJID arg w = (Done (jid, None), w') ->
  (User jid = "" <-> arg = "+").
Proof.
  unfold ParseJID. destruct arg as [|c rest]; [discriminate|].
  destruct (Ascii.eqb c "+") eqn:Hc.
  - apply Ascii.eqb_eq in Hc. subst c.
    destruct (negb (ContainsRune rest "@")) eqn:Hat.
    + intros [= <- <-]. simpl. split; [now intros ->|now intros [= ->]].
    + destruct (types_ParseJID rest) as [recipient [e|]]; [discriminate|].
      destruct (String.eqb (User recipient) "") eqn:Hu; [discriminate|].
      intros [= <- <-]. apply String.eqb_neq in Hu.
      split; [contradiction|]. intros [= ->]. discriminate Hat.
  - assert (Hne : String c rest <> "+").
    { intros [= -> ->]. discriminate. }
    destruct (negb (ContainsRune (String c rest) "@")).
    + intros [= <- <-]. simpl. split; [discriminate|contradiction].
    + destruct (types_ParseJID _) as [recipient [e|]]; [discriminate|].
      destruct (String.eqb (User recipient) "") eqn:Hu; [discriminate|].
      intros [= <- <-]. apply String.eqb_neq in Hu.
      split; contradiction.
Qed.

Lemma ParseJID_empty_user_witness :
  ParseJID (L := sampleLib) "+" world0
  = (Done (NewJID "" "s.whatsapp.net", None), world0)
  /\ User (NewJID "" "s.whatsapp.net") = "".
Proof.
  split; [reflexivity|].
  apply (ParseJID_empty_user (L := sampleLib) "+" world0 world0);
    reflexivity.
Defined.

(** X6.  [ParseJID] drops one leading ['+'] and no more: an argument and
    the same argument with a ['+'] put before it give the same result,
    provided the argument is not empty and does not itself start with
    ['+']. *)
Theorem ParseJID_strips_one_plus {L : Lib} (arg : string) (w : World) :
  arg <> "" -> HasPrefix arg "+" = false ->
  ParseJID ("+" +:+ arg) w = ParseJID arg w.
Proof.
  intros Hne Hplus. destruct arg as [|c rest]; [congruence|].
  simpl in Hplus.
  replace (HasPrefix rest "") with true in Hplus by now destruct rest.
  rewrite andb_true_r in Hplus.
  change ("+" +:+ String c rest) with (String "+" (String c rest)).
  unfold ParseJID. rewrite Hplus. reflexivity.
Qed.

Lemma ParseJID_strips_one_plus_witness :
  ParseJID (L := sampleLib) "+6281234567890@s.whatsapp.net" world0
  = ParseJID (L := sampleLib) "6281234567890@s.whatsapp.net" world0.
Proof.
  apply (ParseJID_strips_one_plus (L := sampleLib)
           "6281234567890@s.whatsapp.net" world0);
    [discriminate|reflexivity].
Defined.

Lemma String_forallb_append (p : ascii -> bool) (s t : string) :
  String_forallb p (s +:+ t) = String_forallb p s && String_forallb p t.
Proof.
  induction s as [|c s IH]; [reflexivity|].
  rewrite append_cons. simpl. rewrite IH. apply andb_assoc.
Qed.

(** Every run found is a non-empty string of digits. *)
Lemma FindAllDigits_from_digits (s cur : string) :
  String_forallb isDigit cur = true ->
  Forall (fun m => String_forallb isDigit m = true /\ m <> "")
         (FindAllDigits_from cur s).
Proof.
  revert cur. induction s as [|c s IH]; intros cur Hcur; simpl.
  - destruct cur; [constructor|]. constructor; [|constructor].
    split; [exact Hcur|discriminate].
  - destruct (isDigit c) eqn:Hc.
    + apply IH. rewrite String_forallb_append, Hcur. simpl. now rewrite Hc.
    + destruct cur as [|a cur]; [now apply IH|].
      constructor; [split; [exact Hcur|discriminate]|now apply IH].
Qed.

Lemma FindAllDigits_from_nil (s cur : string) :
  FindAllDigits_from cur s = [] ->
  cur = "" /\ String_forallb (fun c => negb (isDigit c)) s = true.
Proof.
  revert cur. induction s as [|c s IH]; intros cur; simpl.
  - destruct cur; [auto|discriminate].
  - destruct (isDigit c) eqn:Hc.
    + intros H. apply IH in H as [H _]. destruct cur; discriminate.
    + destruct cur; [|discriminate]. intros H. apply IH in H as [_ H].
      auto.
Qed.

(** X7.  The phone number extracted from an address consists of digits
    only; it is empty exactly when the address has no digit; and
    extracting from an extracted number gives the number back. *)
Theorem extractPhoneNumber_digits (jid : string) :
  String_forallb isDigit (extractPhoneNumber jid) = true
  /\ (extractPhoneNumber jid = ""
      <-> String_forallb (fun c => negb (isDigit c)) jid = true)
  /\ extractPhoneNumber (extractPhoneNumber jid) = extractPhoneNumber jid.
Proof.
  pose proof (FindAllDigits_from_digits jid "" eq_refl) as Hall.
  pose proof (FindAllDigits_from_nil jid "") as Hnil.
  unfold extractPhoneNumber, FindAllDigits in *.
  destruct (FindAllDigits_from "" jid) as [|m0 rest] eqn:Hruns.
  - split; [reflexivity|]. split; [|reflexivity].
    split; [intros _; now apply Hnil|reflexivity].
  - inversion Hall as [|? ? [Hd Hne] _]; subst.
    split; [exact Hd|]. split.
    + split; [contradiction|]. intros Hno.
      pose proof (FindAllDigits_from_skip jid "" Hno) as Hskip.
      rewrite append_empty_r, Hruns in Hskip. discriminate.
    + pose proof (extractPhoneNumber_first_run "" m0 "" eq_refl Hd Hne
                    eq_refl) as Hrt.
      rewrite append_nil, append_empty_r in Hrt.
      unfold extractPhoneNumber, FindAllDigits in Hrt. exact Hrt.
Qed.

Lemma extractPhoneNumber_digits_witness :
  extractPhoneNumber "status@broadcast" = "".
Proof.
  apply (proj1 (proj2 (extractPhoneNumber_digits "status@broadcast"))).
  reflexivity.
Defined.

(* ===================================================================== *)
(** * More on the extraction and on the body of a message                 *)
(* ===================================================================== *)

Lemma HasPrefix_append (p s prefix : string) :
  HasPrefix (p +:+ s) (p +:+ prefix) = HasPrefix s prefix.
Proof.
  induction p as [|c p IH]; [reflexivity|].
  rewrite !append_cons. simpl. rewrite Ascii.eqb_refl. exact IH.
Qed.

Lemma HasPrefix_slash (root rest : string) :
  HasPrefix (root +:+ "/" +:+ rest) (root +:+ "/") = true.
Proof.
  rewrite HasPrefix_append.
  change ("/" +:+ rest) with (String "/" rest). simpl.
  now destruct rest.
Qed.

Section MoreExtraction.
Context {L : Lib} {C : Config} {E : Env}.

(** X8.  [ExtractMedia] on an attachment downloads it exactly once and
    writes at most one file; a file it writes holds the bytes just
    downloaded for this attachment, has mode 0600 and lies under
    [storageLocation]; and it returns an error exactly when the download
    or the write was refused. *)
Theorem ExtractMedia_writes_what_it_downloads (storageLocation : string)
    (m : DownloadableMessage) (w : World) :
  let evs := events_of (ExtractMedia storageLocation (Some m)) w in
  count (isDownloadOf m) evs = 1%nat
  /\ (count isWriteFile evs <= 1)%nat
  /\ (forall name data perm res,
        In (EvWriteFile name data perm res) evs ->
        perm = 384
        /\ HasPrefix name (storageLocation +:+ "/") = true
        /\ In (EvDownload m (Ok data)) evs)
  /\ exists em err,
       fst (ExtractMedia storageLocation (Some m) w) = Done (em, err)
       /\ (err = None <-> existsb isFailedExtraction evs = false)
       /\ (err = None ->
           exists data, In (EvWriteFile (MediaPath em) data 384 None) evs).
Proof.
  cbv zeta. unfold events_of, ExtractMedia. munfold.
  assert (Hm : bool_decide (m = m) = true) by now apply bool_decide_eq_true.
  destruct (cli_Download_result (trace w) m) as [data|e] eqn:Hd.
  - cbv zeta. simpl.
    match goal with
    | |- context [os_WriteFile_result ?tr ?p ?d] =>
        destruct (os_WriteFile_result tr p d) as [e|] eqn:Hw
    end; simpl;
    match goal with
    | |- context [events_since ?t (?a :: ?b :: ?c :: ?d :: ?t)] =>
        change (a :: b :: c :: d :: t) with ([a; b; c; d] ++ t);
        rewrite events_since_app
    end;
    unfold count; simpl; rewrite Hm; simpl;
    (split; [reflexivity|]); (split; [lia|]); split.
    + intros name data' perm res [H'|[H'|[H'|[H'|[]]]]]; try discriminate.
      injection H' as <- <- <- <-.
      repeat split; [apply HasPrefix_slash|tauto].
    + eexists _, (Some e). split; [reflexivity|].
      split; [split; discriminate|discriminate].
    + intros name data' perm res [H'|[H'|[H'|[H'|[]]]]]; try discriminate.
      injection H' as <- <- <- <-.
      repeat split; [apply HasPrefix_slash|tauto].
    + eexists _, None. split; [reflexivity|].
      split; [split; reflexivity|]. intros _. exists data. simpl. tauto.
  - simpl.
    match goal with
    | |- context [events_since ?t (?a :: ?t)] =>
        change (a :: t) with ([a] ++ t); rewrite events_since_app
    end.
    unfold count. simpl. rewrite Hm. simpl.
    split; [reflexivity|]. split; [lia|]. split.
    + intros name data perm res [H'|[]]. discriminate.
    + eexists _, (Some e). split; [reflexivity|].
      split; [split; discriminate|discriminate].
Qed.

End MoreExtraction.

Lemma ExtractMedia_writes_what_it_downloads_witness :
  In (EvDownload (ImageMessage sampleImage) (Ok [Byte.x89; Byte.x50]))
     (events_of (ExtractMedia (L := sampleLib) (E := sampleEnv 200)
                   "storages" (Some (ImageMessage sampleImage))) world0).
Proof.
  apply (proj1 (proj2 (proj2 (ExtractMedia_writes_what_it_downloads
                                (L := sampleLib) (E := sampleEnv 200)
                                "storages" (ImageMessage sampleImage)
                                world0)))
           "storages/1700000001-123e4567-e89b-12d3-a456-426614174000.jpeg"
           [Byte.x89; Byte.x50] 384 None).
  vm_compute. left. reflexivity.
Defined.

Section MoreForwarding.
Context {L : Lib} {C : Config} {E : Env}.

Lemma extractionFailed_last (m : DownloadableMessage) (err : error)
    (evs : Trace) :
  extractionFailed m err evs ->
  exists ev rest,
    evs = ev :: rest /\ isFailedExtraction ev = true
    /\ existsb isFailedExtraction rest = false.
Proof.
  intros [-> | (path & data & now & uuid & ->)]; eexists _, _;
    (split; [reflexivity|]); split; reflexivity.
Qed.

Ltac failed_last :=
  intros [= <- <-];
  match goal with
  | H : blockFailed _ _ _ _ |- _ =>
      let m := fresh "m" in let err := fresh "err" in
      destruct H as (m & err & _ & _ & H);
      apply extractionFailed_last in H as (? & ? & -> & ? & ?)
  end;
  repeat match goal with
  | H : blockOk _ _ _ _ _ |- _ =>
      let F := fresh "F" in
      apply blockOk_facts in H as (_ & F & _)
  end;
  rewrite ?emits_emits;
  match goal with
  | Hev : isFailedExtraction ?ev = true,
    Hrest : existsb isFailedExtraction ?rest = false |- _ =>
      eexists ev, _; split; [reflexivity|]; split; [exact Hev|];
      rewrite ?existsb_app, Hrest
  end;
  repeat match goal with
  | H : existsb _ _ = false |- _ => rewrite H; clear H
  end;
  reflexivity.

(** A failed block is the last thing that [extractAll] does. *)
Lemma extractAll_failed_last (evt : evMessage) (body : gmap string Value)
    (w w' : World) (e : pkgError) :
  extractAll evt body w = (Done (inl e), w') ->
  exists ev rest,
    w' = emits (ev :: rest) w /\ isFailedExtraction ev = true
    /\ existsb isFailedExtraction rest = false.
Proof.
  unfold extractAll. cbv zeta.
  fold (imageOf evt) (stickerOf evt) (videoOf evt) (audioOf evt)
       (documentOf evt).
  unfold mbind, M_bind, bind, mret, M_ret, ret.
  destruct (extractInto_run "image" (imageOf evt) body w)
    as (evs1 & r1 & H1 & P1).
  rewrite H1. destruct r1 as [e1|body1]; [failed_last|].
  destruct (extractInto_run "sticker" (stickerOf evt) body1 (emits evs1 w))
    as (evs2 & r2 & H2 & P2).
  rewrite H2. destruct r2 as [e2|body2]; [failed_last|].
  destruct (extractInto_run "video" (videoOf evt) body2
              (emits evs2 (emits evs1 w))) as (evs3 & r3 & H3 & P3).
  rewrite H3. destruct r3 as [e3|body3]; [failed_last|].
  destruct (extractInto_run "audio" (audioOf evt) body3
              (emits evs3 (emits evs2 (emits evs1 w))))
    as (evs4 & r4 & H4 & P4).
  rewrite H4. destruct r4 as [e4|body4]; [failed_last|].
  destruct (extractInto_run "document" (documentOf evt) body4
              (emits evs4 (emits evs3 (emits evs2 (emits evs1 w)))))
    as (evs5 & r5 & H5 & P5).
  rewrite H5. destruct r5 as [e5|body5]; [failed_last|discriminate].
Qed.

(** X9.  [forwardToWebhook] stops at the first extraction that fails: if
    a download or a write was refused during the call, that refusal is the
    last action of the call, and it is the only refusal; so no later
    attachment is downloaded and nothing is sent. *)
Theorem forwardToWebhook_stops_at_first_failure (evt : evMessage)
    (w : World) :
  let evs := events_of (forwardToWebhook evt) w in
  existsb isFailedExtraction evs = true ->
  exists ev rest,
    evs = ev :: rest /\ isFailedExtraction ev = true
    /\ existsb isFailedExtraction rest = false.
Proof.
  cbv zeta. unfold events_of, forwardToWebhook. munfold.
  set (w1 := emit (EvLog logrus LInfo "Forwarding event to webhook:") w).
  destruct (extractAll_run evt (webhookBody evt) w1)
    as (evs_x & rx & Hx & _ & _ & _ & H).
  pose proof Hx as Hx'. rewrite Hx. destruct rx as [e|body].
  - apply extractAll_failed_last in Hx' as (ev & rest & Hw' & Hev & Hrest).
    intros _. cbv beta iota. rewrite Hw'. subst w1.
    rewrite emit_emits, emits_emits. cbn [snd emits trace].
    rewrite events_since_app.
    eexists ev, _. split; [reflexivity|]. split; [exact Hev|].
    rewrite existsb_app, Hrest. reflexivity.
  - destruct H as [Hok _].
    destruct (postBody_run body (emits evs_x w1)) as (posts & r & Hp & Ho).
    cbv beta iota. rewrite Hp.
    apply postOutcome_facts in Ho as (_ & Hnf & _).
    subst w1. rewrite emit_emits, !emits_emits. cbn [snd emits trace].
    rewrite events_since_app, !existsb_app, Hnf, Hok. discriminate.
Qed.

(** Every request of [forwardToWebhook] carries the body left by the five
    blocks. *)
Lemma forwardToWebhook_posted_body (evt : evMessage) (w : World)
    (t : Z) (req : Request) (res : result Response) :
  In (EvHttpDo t req res) (events_of (forwardToWebhook evt) w) ->
  exists body evs_x,
    json_Marshal body = Ok (Body req)
    /\ mediaFieldsAfter evt evs_x (webhookBody evt) body.
Proof.
  destruct (forwardToWebhook_run evt w) as (evs & r & Hrun & Hw).
  rewrite (events_of_emits _ _ _ _ Hrun).
  destruct Hw as (evs_x & Fx & _ & _ & [(msg & -> & Hf & ->)|H]).
  - intros Hin. exfalso.
    apply in_app_or in Hin as [Hin|[Hin|[]]]; [|discriminate].
    exact (filter_nil_not_In isHttpDo _ (EvHttpDo t req res)
             (extraction_no_HttpDo _ Fx) eq_refl Hin).
  - destruct H as (body & posts & _ & Hfields & Ho & ->).
    apply postOutcome_facts in Ho as (_ & _ & _ & _ & Hmarshal & _).
    intros Hin. exists body, evs_x. split; [|exact Hfields].
    apply in_app_or in Hin as [Hin|Hin]; [eauto|]. exfalso.
    apply in_app_or in Hin as [Hin|[Hin|[]]]; [|discriminate].
    exact (filter_nil_not_In isHttpDo _ (EvHttpDo t req res)
             (extraction_no_HttpDo _ Fx) eq_refl Hin).
Qed.

Lemma webhookBody_dom (evt : evMessage) : dom (webhookBody evt) = webhookKeys.
Proof.
  unfold webhookBody, webhookKeys. cbv zeta.
  rewrite !dom_insert_L, dom_empty_L. simpl. set_solver.
Qed.

Lemma fieldAfterExtraction_is_Some (evs : Trace)
    (media : option DownloadableMessage) (before field : option Value) :
  fieldAfterExtraction evs media before field ->
  is_Some before -> is_Some field.
Proof.
  unfold fieldAfterExtraction. destruct media as [m|].
  - intros (data & now & uuid & -> & _) _. eauto.
  - now intros ->.
Qed.

Lemma mediaFieldsAfter_dom (evt : evMessage) (evs : Trace)
    (body : gmap string Value) :
  mediaFieldsAfter evt evs (webhookBody evt) body ->
  dom body = dom (webhookBody evt).
Proof.
  intros (H1 & H2 & H3 & H4 & H5 & H6).
  destruct (webhookBody_defaults evt) as (D1 & D2 & D3 & D4 & D5).
  apply set_eq. intros k. rewrite !elem_of_dom.
  destruct (decide (k = "image")) as [->|N1].
  { split; intros _; [rewrite D1; eauto|].
    apply (fieldAfterExtraction_is_Some _ _ _ _ H1). rewrite D1. eauto. }
  destruct (decide (k = "sticker")) as [->|N2].
  { split; intros _; [rewrite D2; eauto|].
    apply (fieldAfterExtraction_is_Some _ _ _ _ H2). rewrite D2. eauto. }
  destruct (decide (k = "video")) as [->|N3].
  { split; intros _; [rewrite D3; eauto|].
    apply (fieldAfterExtraction_is_Some _ _ _ _ H3). rewrite D3. eauto. }
  destruct (decide (k = "audio")) as [->|N4].
  { split; intros _; [rewrite D4; eauto|].
    apply (fieldAfterExtraction_is_Some _ _ _ _ H4). rewrite D4. eauto. }
  destruct (decide (k = "document")) as [->|N5].
  { split; intros _; [rewrite D5; eauto|].
    apply (fieldAfterExtraction_is_Some _ _ _ _ H5). rewrite D5. eauto. }
  now rewrite H6.
Qed.

(** X10.  The body of every request that [forwardToWebhook] sends has
    exactly the seventeen keys of the message payload, with or without
    attachments: an extraction replaces the value of a key and adds or
    removes none. *)
Theorem forwardToWebhook_posted_keys (evt : evMessage) (w : World)
    (t : Z) (req : Request) (res : result Response) :
  In (EvHttpDo t req res) (events_of (forwardToWebhook evt) w) ->
  exists body : gmap string Value,
    json_Marshal body = Ok (Body req)
    /\ dom body = webhookKeys
    /\ size body = 17%nat.
Proof.
  intros Hin.
  destruct (forwardToWebhook_posted_body evt w t req res Hin)
    as (body & evs_x & Hm & Hf).
  exists body. split; [exact Hm|].
  assert (Hd : dom body = webhookKeys)
    by (rewrite (mediaFieldsAfter_dom _ _ _ Hf); apply webhookBody_dom).
  split; [exact Hd|].
  rewrite <- size_dom, Hd. reflexivity.
Qed.

(** X11.  In the body of every request that [forwardToWebhook] sends,
    ["message"] holds the id of the event and, as text, the extended text
    when there is a non-empty one and the conversation otherwise; the id
    of the replied message is given only together with a non-empty
    extended text, also when the message has a reply context; ["from"]
    and ["pushname"] hold the source string and the push name; and
    ["forwarded"] is true exactly when a reply context says so. *)
Theorem forwardToWebhook_posted_message (evt : evMessage) (w : World)
    (t : Z) (req : Request) (res : result Response) :
  In (EvHttpDo t req res) (events_of (forwardToWebhook evt) w) ->
  exists (body : gmap string Value) (m : evtMessage) (forwarded : bool),
    json_Marshal body = Ok (Body req)
    /\ body !! "message" = Some (VEvtMessage m)
    /\ body !! "from" = Some (VString (SourceString (Info_Source (Info evt))))
    /\ body !! "pushname" = Some (VString (Info_PushName (Info evt)))
    /\ body !! "forwarded" = Some (VBool forwarded)
    /\ message_ID m = Info_ID (Info evt)
    /\ (forall x, ExtendedTextMessage (Message evt) = Some x ->
          GetText x <> "" ->
          message_Text m = GetText x
          /\ message_RepliedId m
             = match ContextInfo x with
               | Some ci => GetStanzaID ci
               | None => ""
               end)
    /\ ((forall x, ExtendedTextMessage (Message evt) = Some x ->
           GetText x = "") ->
        message_Text m = GetConversation (Message evt)
        /\ message_RepliedId m = "")
    /\ (forwarded = true <->
        exists x ci, ExtendedTextMessage (Message evt) = Some x
                     /\ ContextInfo x = Some ci
                     /\ GetIsForwarded ci = true).
Proof.
  intros Hin.
  destruct (forwardToWebhook_posted_body evt w t req res Hin)
    as (body & evs_x & Hm & (_ & _ & _ & _ & _ & Hother)).
  eexists body, _, _. split; [exact Hm|].
  rewrite !Hother by discriminate.
  unfold webhookBody. cbv zeta.
  split; [repeat (first [rewrite lookup_insert_eq; reflexivity
                        |rewrite lookup_insert_ne by discriminate])|].
  split; [repeat (first [rewrite lookup_insert_eq; reflexivity
                        |rewrite lookup_insert_ne by discriminate])|].
  split; [repeat (first [rewrite lookup_insert_eq; reflexivity
                        |rewrite lookup_insert_ne by discriminate])|].
  split; [repeat (first [rewrite lookup_insert_eq; reflexivity
                        |rewrite lookup_insert_ne by discriminate])|].
  destruct (ExtendedTextMessage (Message evt)) as [x|].
  - destruct (String.eqb (GetText x) "") eqn:Hx; simpl.
    + apply String.eqb_eq in Hx. split; [reflexivity|]. split.
      * intros x' [= <-] Hne. contradiction.
      * split; [auto|]. split.
        -- destruct (ContextInfo x) as [ci|] eqn:Hci; [|discriminate].
           intros Hf. exists x, ci. auto.
        -- intros (x' & ci & [= <-] & Hci & Hf). rewrite Hci. exact Hf.
    + apply String.eqb_neq in Hx. split; [reflexivity|]. split.
      * intros x' [= <-] _. auto.
      * split; [intros Hall; now specialize (Hall x eq_refl)|]. split.
        -- destruct (ContextInfo x) as [ci|] eqn:Hci; [|discriminate].
           intros Hf. exists x, ci. auto.
        -- intros (x' & ci & [= <-] & Hci & Hf). rewrite Hci. exact Hf.
  - simpl. split; [reflexivity|]. split; [discriminate|].
    split; [auto|]. split; [discriminate|].
    intros (x' & ci & Hx & _). discriminate.
Qed.

End MoreForwarding.

Lemma forwardToWebhook_stops_at_first_failure_witness :
  exists ev rest,
    events_of (forwardToWebhook (L := sampleLib) (C := sampleConfig)
                 (E := offlineEnv) imageEvent) world0 = ev :: rest
    /\ isFailedExtraction ev = true
    /\ existsb isFailedExtraction rest = false.
Proof.
  apply (forwardToWebhook_stops_at_first_failure
           (L := sampleLib) (C := sampleConfig) (E := offlineEnv)
           imageEvent world0).
  vm_compute. reflexivity.
Defined.

Lemma forwardToWebhook_posted_keys_witness :
  exists body : gmap string Value,
    json_Marshal (Lib := sampleLib) body
    = Ok (Body (webhookRequest (C := sampleConfig) []))
    /\ dom body = webhookKeys /\ size body = 17%nat.
Proof.
  apply (forwardToWebhook_posted_keys
           (L := sampleLib) (C := sampleConfig) (E := sampleEnv 200)
           imageEvent world0 10 (webhookRequest (C := sampleConfig) [])
           (Ok (mkResponse 200))).
  vm_compute. left. reflexivity.
Defined.

Lemma forwardToWebhook_posted_message_witness :
  exists (body : gmap string Value) (m : evtMessage),
    body !! "message" = Some (VEvtMessage m)
    /\ message_ID m = "3EB0" /\ message_Text m = "hi"
    /\ message_RepliedId m = "XYZ".
Proof.
  destruct (forwardToWebhook_posted_message
              (L := sampleLib) (C := sampleConfig) (E := sampleEnv 200)
              replyEvent world0 10 (webhookRequest (C := sampleConfig) [])
              (Ok (mkResponse 200)))
    as (body & m & fw & _ & Hm & _ & _ & _ & Hid & Hext & _).
  { vm_compute. left. reflexivity. }
  exists body, m. split; [exact Hm|]. split; [exact Hid|].
  apply (Hext (mkExtendedText "hi"
                 (Some (mkContextInfo "XYZ" "earlier" true))) eq_refl).
  discriminate.
Defined.

(* ===================================================================== *)
(** * More on [handler]                                                   *)
(* ===================================================================== *)

Lemma events_since_refl (t : Trace) : events_since t t = [].
Proof. unfold events_since. now rewrite Nat.sub_diag. Qed.

Ltac since :=
  repeat match goal with
  | |- context [events_since ?t (?a :: ?b :: ?c :: ?d :: ?t)] =>
      change (a :: b :: c :: d :: t) with ([a; b; c; d] ++ t);
      rewrite events_since_app
  | |- context [events_since ?t (?a :: ?b :: ?c :: ?t)] =>
      change (a :: b :: c :: t) with ([a; b; c] ++ t);
      rewrite events_since_app
  | |- context [events_since ?t (?a :: ?b :: ?t)] =>
      change (a :: b :: t) with ([a; b] ++ t); rewrite events_since_app
  | |- context [events_since ?t (?a :: ?t)] =>
      change (a :: t) with ([a] ++ t); rewrite events_since_app
  | |- context [events_since ?t ?t] => rewrite events_since_refl
  end.

Lemma forallb_isMessageEvent (l : Trace) :
  forallb isExtractionEvent l = true -> forallb isMessageEvent l = true.
Proof.
  intros H. apply forallb_forall. intros e He.
  apply (proj1 (forallb_forall _ _) H) in He.
  unfold isMessageEvent. now rewrite He.
Qed.

Lemma count_none (p q : IOEvent -> bool) (l : Trace) :
  forallb p l = true -> (forall e, p e = true -> q e = false) ->
  count q l = 0%nat.
Proof.
  intros H Hpq. unfold count. now rewrite (filter_disjoint p q l H Hpq).
Qed.

Section MoreHandler.
Context {L : Lib} {C : Config} {E : Env}.

Lemma postOutcome_kinds (body : gmap string Value) (r : option pkgError)
    (posts : Trace) :
  postOutcome body r posts ->
  forallb isMessageEvent posts = true /\ (count isHttpDo posts <= 1)%nat.
Proof.
  unfold postOutcome. destruct (json_Marshal body) as [marshalled|err].
  - destruct (http_NewRequest_err "POST" WhatsappWebhook) as [err|].
    + intros [_ ->]. split; [reflexivity|]. unfold count. simpl. lia.
    + intros (res & -> & _). split; [reflexivity|]. unfold count. simpl. lia.
  - intros [_ ->]. split; [reflexivity|]. unfold count. simpl. lia.
Qed.

Lemma webhookRun_kinds (evt : evMessage) (r : option pkgError)
    (evs : Trace) :
  webhookRun evt r evs ->
  forallb isMessageEvent evs = true /\ (count isHttpDo evs <= 1)%nat.
Proof.
  intros (evs_x & Fx & _ & _ & [(msg & _ & _ & ->)|H]).
  - rewrite forallb_app, count_app, (forallb_isMessageEvent _ Fx).
    rewrite (count_none isExtractionEvent isHttpDo _ Fx) by now intros [].
    split; [reflexivity|]. unfold count. simpl. lia.
  - destruct H as (body & posts & _ & _ & Ho & ->).
    apply postOutcome_kinds in Ho as [Hk Hc].
    rewrite !forallb_app, !count_app, Hk, (forallb_isMessageEvent _ Fx).
    rewrite (count_none isExtractionEvent isHttpDo _ Fx) by now intros [].
    split; [reflexivity|]. unfold count in *. simpl. lia.
Qed.

Lemma downloadImage_kinds (evt : evMessage) (w : World) :
  exists evs,
    downloadImage evt w = (Done tt, emits evs w)
    /\ forallb isExtractionEvent evs = true.
Proof.
  unfold downloadImage.
  destruct (GetImageMessage (Message evt)) as [img|].
  - destruct (ExtractMedia_run_facts PathStorages (ImageMessage img) w)
      as (evs & [em err] & Hrun & Fx & _).
    unfold mbind, M_bind, bind. rewrite Hrun. munfold.
    destruct err as [e|]; eexists; rewrite emit_emits, emits_emits;
      (split; [reflexivity|]); simpl; exact Fx.
  - exists []. rewrite emits_nil. split; reflexivity.
Qed.

Lemma forwardMessage_kinds (evt : evMessage) (w : World) :
  exists evs,
    forwardMessage evt w = (Done tt, emits evs w)
    /\ forallb isMessageEvent evs = true
    /\ (count isHttpDo evs <= 1)%nat
    /\ (webhookGuard evt = false -> evs = []).
Proof.
  unfold forwardMessage. destruct (webhookGuard evt).
  - destruct (forwardToWebhook_run evt w) as (evs & r & Hrun & Hw).
    apply webhookRun_kinds in Hw as [Hk Hc].
    munfold. rewrite Hrun. destruct r as [e|].
    + eexists. rewrite emit_emits, emits_emits. split; [reflexivity|].
      simpl. rewrite Hk. repeat split; [|discriminate].
      unfold count in *. simpl. exact Hc.
    + exists evs. repeat split; auto; discriminate.
  - exists []. rewrite emits_nil. repeat split. unfold count. simpl. lia.
Qed.

Lemma handlerMessage_kinds (evt : evMessage) (w : World) :
  exists evs,
    handler (EvtMessage evt) w = (Done tt, emits evs w)
    /\ forallb isMessageEvent evs = true
    /\ (count isHttpDo evs <= 1)%nat
    /\ (webhookGuard evt = false -> count isHttpDo evs = 0%nat).
Proof.
  unfold handler. munfold.
  set (w1 := emit _ w).
  destruct (downloadImage_kinds evt w1) as (evs1 & H1 & K1).
  rewrite H1, autoReply_run.
  set (reply := if autoReplyGuard evt then _ else _).
  destruct (forwardMessage_kinds evt (emits reply (emits evs1 w1)))
    as (evs3 & H3 & K3 & C3 & N3).
  rewrite H3. subst w1. rewrite emit_emits, !emits_emits.
  eexists. split; [reflexivity|].
  assert (Kr : forallb isMessageEvent reply = true
               /\ count isHttpDo reply = 0%nat)
    by (subst reply; destruct (autoReplyGuard evt); split; reflexivity).
  destruct Kr as [Kr Cr].
  rewrite !forallb_app, !count_app, K3, Kr, Cr,
    (forallb_isMessageEvent _ K1),
    (count_none isExtractionEvent isHttpDo _ K1) by now intros [].
  split; [reflexivity|]. split.
  - unfold count in *. simpl. lia.
  - intros Hg. rewrite (N3 Hg). reflexivity.
Qed.

Lemma forwardReceiptLogged_kinds (evt : evReceipt) (w : World) :
  exists evs,
    forwardReceiptLogged evt w = (Done tt, emits evs w)
    /\ forallb isMessageEvent evs = true
    /\ (count isHttpDo evs <= 1)%nat
    /\ (receiptGuard evt = false -> evs = []).
Proof.
  unfold forwardReceiptLogged. destruct (receiptGuard evt).
  - destruct (forwardReceipt_run evt w) as (posts & r & Hrun & Ho).
    apply postOutcome_kinds in Ho as [Hk Hc].
    munfold. rewrite Hrun. destruct r as [e|].
    + eexists. rewrite emit_emits, emits_emits. split; [reflexivity|].
      rewrite !forallb_app, !count_app, Hk.
      repeat split; [|discriminate]. unfold count in *. simpl. lia.
    + eexists. split; [reflexivity|].
      rewrite !forallb_app, !count_app, Hk.
      repeat split; [|discriminate]. unfold count in *. simpl. lia.
  - exists []. rewrite emits_nil. repeat split. unfold count. simpl. lia.
Qed.

(** What [handler] does with a receipt. *)
Lemma handlerReceipt_kinds (evt : evReceipt) (w : World) :
  exists evs,
    handler (EvtReceipt evt) w = (handlerOutcome (EvtReceipt evt), emits evs w)
    /\ forallb isMessageEvent evs = true
    /\ (count isHttpDo evs <= 1)%nat
    /\ (postingAllowed (EvtReceipt evt) = false ->
        count isHttpDo evs = 0%nat)
    /\ (isReadReceipt evt = false -> isDeliveredReceipt evt = false ->
        evs = [])
    /\ (handlerOutcome (EvtReceipt evt) <> Done tt -> evs = []).
Proof.
  unfold handler, handlerOutcome, postingAllowed, isDeliveredReceipt,
    isReadReceipt.
  destruct (String.eqb (Type_ evt) ReceiptTypeRead
            || String.eqb (Type_ evt) ReceiptTypeReadSelf) eqn:Hread.
  - munfold. set (w1 := emit _ w).
    destruct (forwardReceiptLogged_kinds evt w1) as (evs & Hrun & Hk & Hc & Hn).
    rewrite Hrun. subst w1. rewrite emit_emits, emits_emits. simpl.
    eexists. split; [reflexivity|].
    rewrite forallb_app, count_app, Hk.
    split; [reflexivity|]. split; [unfold count in *; simpl; lia|].
    split; [|split; [discriminate|congruence]].
    rewrite ?orb_true_r, ?andb_true_r. intros Hg. rewrite (Hn Hg).
    reflexivity.
  - simpl. destruct (String.eqb (Type_ evt) ReceiptTypeDelivered) eqn:Hdel.
    + destruct (MessageIDs evt) as [|id ids] eqn:Hids.
      * exists []. rewrite emits_nil. simpl.
        try rewrite bool_decide_eq_true_2 by reflexivity.
        repeat split; try reflexivity. unfold count. simpl. lia.
      * munfold. set (w1 := emit _ w).
        destruct (forwardReceiptLogged_kinds evt w1)
          as (evs & Hrun & Hk & Hc & Hn).
        rewrite Hrun. subst w1. rewrite emit_emits, emits_emits. simpl.
        try rewrite bool_decide_eq_false_2 by discriminate.
        eexists. split; [reflexivity|].
        rewrite forallb_app, count_app, Hk.
        split; [reflexivity|]. split; [unfold count in *; simpl; lia|].
        split; [|split; [discriminate|congruence]].
        simpl. rewrite ?andb_true_r. intros Hg. rewrite (Hn Hg).
        reflexivity.
    + exists []. rewrite emits_nil. simpl.
      repeat split; try reflexivity; try congruence.
      unfold count. simpl. lia.
Qed.

(** X12.  Whatever the event, [handler] sends at most one request to the
    webhook, and none at all unless the event is a message or a receipt
    that passes the filters: for a message, a configured webhook, a source
    without ["broadcast"] and a sender other than the account itself; for
    a read or delivered receipt, a configured webhook and a source other
    than the account itself. *)
Theorem handler_requests (evt : Event) (w : World) :
  let posts := count isHttpDo (events_of (handler evt) w) in
  (posts <= 1)%nat
  /\ (postingAllowed evt = false -> posts = 0%nat)
  /\ (forall m, evt = EvtMessage m ->
        WhatsappWebhook = ""
        \/ Contains (SourceString (Info_Source (Info m))) "broadcast" = true
        \/ isFromMySelf (SourceString (Info_Source (Info m))) = true ->
        posts = 0%nat)
  /\ (forall r, evt = EvtReceipt r ->
        WhatsappWebhook = ""
        \/ isFromMySelf (SourceString (Receipt_Source r)) = true ->
        posts = 0%nat).
Proof.
  cbv zeta.
  assert (Hmain : (count isHttpDo (events_of (handler evt) w) <= 1)%nat
                  /\ (postingAllowed evt = false ->
                      count isHttpDo (events_of (handler evt) w) = 0%nat)).
  { destruct evt as [mid sender|name|id| | | | |m|r|p|hs| |].
    all: try (unfold events_of, handler; simpl; since;
              split; [unfold count; simpl; lia|reflexivity]).
    - unfold events_of, handler.
      destruct (_ && _); [|simpl; since; split; [unfold count; simpl; lia
                                                 |reflexivity]].
      unfold announcePresence, cli_SendPresence. munfold.
      destruct (cli_SendPresence_result (trace w)); simpl; since;
        (split; [unfold count; simpl; lia|reflexivity]).
    - unfold events_of, handler.
      destruct (_ =? _); [simpl; since; split; [unfold count; simpl; lia
                                                |reflexivity]|].
      unfold announcePresence, cli_SendPresence. munfold.
      destruct (cli_SendPresence_result (trace w)); simpl; since;
        (split; [unfold count; simpl; lia|reflexivity]).
    - unfold events_of, handler.
      destruct (_ =? _); [simpl; since; split; [unfold count; simpl; lia
                                                |reflexivity]|].
      unfold announcePresence, cli_SendPresence. munfold.
      destruct (cli_SendPresence_result (trace w)); simpl; since;
        (split; [unfold count; simpl; lia|reflexivity]).
    - destruct (handlerMessage_kinds m w) as (evs & Hrun & _ & Hc & Hn).
      rewrite (events_of_emits _ _ _ _ Hrun). auto.
    - destruct (handlerReceipt_kinds r w) as (evs & Hrun & _ & Hc & Hn & _).
      rewrite (events_of_emits _ _ _ _ Hrun). auto.
    - unfold events_of, handler.
      destruct (Unavailable p); [destruct (LastSeen_IsZero p)|];
        simpl; since; (split; [unfold count; simpl; lia|reflexivity]).
    - unfold events_of, handler, atomic_AddInt32_historySyncID,
        get_startupTime, os_OpenFile, enc_Encode, file_Close.
      munfold. cbv zeta. simpl.
      destruct (os_OpenFile_result _ _); simpl;
        [since; split; [unfold count; simpl; lia|reflexivity]|].
      destruct (enc_Encode_result _ _ _); simpl; since;
        (split; [unfold count; simpl; lia|reflexivity]). }
  destruct Hmain as [Hle Hnone].
  split; [exact Hle|]. split; [exact Hnone|]. split.
  - intros m -> H. apply Hnone. simpl. unfold webhookGuard.
    destruct H as [-> | [-> | ->]]; simpl;
      rewrite ?andb_false_r; reflexivity.
  - intros r -> H. apply Hnone. simpl. unfold receiptGuard.
    destruct H as [-> | ->]; simpl; rewrite ?andb_false_r; reflexivity.
Qed.

End MoreHandler.

Lemma handler_requests_witness :
  count isHttpDo
    (events_of (handler (L := sampleLib) (C := sampleConfig)
                  (E := sampleEnv 200) (EvtMessage ownEvent)) world0)
  = 0%nat.
Proof.
  apply (proj1 (proj2 (proj2 (handler_requests
                                (L := sampleLib) (C := sampleConfig)
                                (E := sampleEnv 200)
                                (EvtMessage ownEvent) world0)))
           ownEvent eq_refl).
  right. right. reflexivity.
Defined.

Section MoreHandler2.
Context {L : Lib} {C : Config} {E : Env}.

(** X13.  [handler] returns normally on every event but two: a replaced
    stream ends the process with status 0, and a delivery receipt without
    message ids is a panic (a read receipt without ids is not); in both
    cases nothing has been done before.  A receipt of any type other than
    read, read-self and delivered is ignored altogether. *)
Theorem handler_outcome (evt : Event) (w : World) :
  fst (handler evt w) = handlerOutcome evt
  /\ (handlerOutcome evt <> Done tt -> snd (handler evt w) = w)
  /\ (forall r, evt = EvtReceipt r ->
        isReadReceipt r = false -> isDeliveredReceipt r = false ->
        handler evt w = (Done tt, w))
  /\ (forall r, evt = EvtReceipt r -> isReadReceipt r = true ->
        handlerOutcome evt = Done tt).
Proof.
  split; [|split; [|split]].
  - destruct evt as [mid sender|name|id| | | | |m|r|p|hs| |];
      try reflexivity.
    + unfold handler. destruct (_ && _); [|reflexivity].
      unfold announcePresence, cli_SendPresence. munfold.
      destruct (cli_SendPresence_result (trace w)); reflexivity.
    + unfold handler. destruct (_ =? _); [reflexivity|].
      unfold announcePresence, cli_SendPresence. munfold.
      destruct (cli_SendPresence_result (trace w)); reflexivity.
    + unfold handler. destruct (_ =? _); [reflexivity|].
      unfold announcePresence, cli_SendPresence. munfold.
      destruct (cli_SendPresence_result (trace w)); reflexivity.
    + destruct (handlerMessage_kinds m w) as (evs & -> & _). reflexivity.
    + destruct (handlerReceipt_kinds r w) as (evs & -> & _). reflexivity.
    + unfold handler.
      destruct (Unavailable p); [destruct (LastSeen_IsZero p)|];
        reflexivity.
    + apply handler_historySync_done.
  - destruct evt as [mid sender|name|id| | | | |m|r|p|hs| |];
      try (intros H; now contradiction H); try reflexivity.
    destruct (handlerReceipt_kinds r w) as (evs & -> & _ & _ & _ & _ & Hn).
    intros H. rewrite (Hn H). apply emits_nil.
  - intros r -> Hr Hd.
    destruct (handlerReceipt_kinds r w)
      as (evs & Hrun & _ & _ & _ & Hn & _).
    rewrite Hrun, (Hn Hr Hd), emits_nil. unfold handlerOutcome.
    now rewrite Hd.
  - intros r -> Hr. unfold handlerOutcome, isDeliveredReceipt.
    now rewrite Hr.
Qed.

(** X14.  [handler] announces the presence exactly once on a connection,
    on a change of the push name and on the completion of the app state
    sync of the critical block, provided the push name of the account is
    not empty, and never otherwise; a failed announcement is not tried
    again. *)
Theorem handler_presence (evt : Event) (w : World) :
  count isSendPresence (events_of (handler evt) w)
  = if announcesPresence evt then 1%nat else 0%nat.
Proof.
  unfold announcesPresence.
  destruct evt as [mid sender|name|id| | | | |m|r|p|hs| |];
    rewrite ?andb_false_r.
  all: try (unfold events_of, handler; simpl; since; reflexivity).
  - unfold events_of, handler.
    destruct (_ && _); [|simpl; since; reflexivity].
    unfold announcePresence, cli_SendPresence. munfold.
    destruct (cli_SendPresence_result (trace w)); simpl; since; reflexivity.
  - unfold events_of, handler. rewrite andb_true_r.
    assert (Hlen : 0 <= len cli_Store_PushName) by (unfold len; lia).
    destruct (len cli_Store_PushName =? 0) eqn:H0.
    + apply Z.eqb_eq in H0. rewrite H0. simpl. since. reflexivity.
    + apply Z.eqb_neq in H0.
      replace (0 <? len cli_Store_PushName) with true
        by (symmetry; apply Z.ltb_lt; lia).
      unfold announcePresence, cli_SendPresence. munfold.
      destruct (cli_SendPresence_result (trace w)); simpl; since;
        reflexivity.
  - unfold events_of, handler. rewrite andb_true_r.
    assert (Hlen : 0 <= len cli_Store_PushName) by (unfold len; lia).
    destruct (len cli_Store_PushName =? 0) eqn:H0.
    + apply Z.eqb_eq in H0. rewrite H0. simpl. since. reflexivity.
    + apply Z.eqb_neq in H0.
      replace (0 <? len cli_Store_PushName) with true
        by (symmetry; apply Z.ltb_lt; lia).
      unfold announcePresence, cli_SendPresence. munfold.
      destruct (cli_SendPresence_result (trace w)); simpl; since;
        reflexivity.
  - destruct (handlerMessage_kinds m w) as (evs & Hrun & Hk & _).
    rewrite (events_of_emits _ _ _ _ Hrun).
    apply (count_none isMessageEvent _ _ Hk). now intros [].
  - destruct (handlerReceipt_kinds r w) as (evs & Hrun & Hk & _).
    rewrite (events_of_emits _ _ _ _ Hrun).
    apply (count_none isMessageEvent _ _ Hk). now intros [].
  - unfold events_of, handler.
    destruct (Unavailable p); [destruct (LastSeen_IsZero p)|];
      simpl; since; reflexivity.
  - unfold events_of, handler, atomic_AddInt32_historySyncID,
      get_startupTime, os_OpenFile, enc_Encode, file_Close.
    munfold. cbv zeta. simpl.
    destruct (os_OpenFile_result _ _); simpl; [since; reflexivity|].
    destruct (enc_Encode_result _ _ _); simpl; since; reflexivity.
Qed.

End MoreHandler2.

Lemma handler_outcome_witness :
  handler (L := sampleLib) (C := sampleConfig) (E := sampleEnv 200)
    (EvtReceipt deliveredReceiptNoIds) world0
  = (Panic "index out of range [0] with length 0", world0)
  /\ fst (handler (L := sampleLib) (C := sampleConfig) (E := sampleEnv 200)
            (EvtReceipt readReceiptNoIds) world0) = Done tt.
Proof.
  pose proof (handler_outcome (L := sampleLib) (C := sampleConfig)
                (E := sampleEnv 200) (EvtReceipt deliveredReceiptNoIds)
                world0) as (Hfst & Hsnd & _).
  pose proof (handler_outcome (L := sampleLib) (C := sampleConfig)
                (E := sampleEnv 200) (EvtReceipt readReceiptNoIds)
                world0) as (Hfst' & _ & _ & Hread).
  split.
  - rewrite (surjective_pairing (handler _ _)), Hfst, Hsnd;
      [reflexivity|discriminate].
  - rewrite Hfst'. apply (Hread readReceiptNoIds eq_refl). reflexivity.
Defined.

(* ===================================================================== *)
(** * The login helpers                                                   *)
(* ===================================================================== *)

(** X15.  [ValidateJidWithLogin] returns only for a client that exists, is
    connected and is logged in.  Otherwise it panics before anything
    else, with the first of: no client, not connected, not logged in. *)
Theorem ValidateJidWithLogin_needs_login {L : Lib} (accountValidation : bool)
    (waCli : option waClient) (jid : string) (w : World) :
  (forall r w', ValidateJidWithLogin accountValidation waCli jid w
                = (Done r, w') ->
     exists cli, waCli = Some cli
                 /\ IsConnected cli = true /\ IsLoggedIn cli = true)
  /\ (waCli = None ->
      ValidateJidWithLogin accountValidation waCli jid w
      = (Panic (panicValue (InternalServerError
                              "Whatsapp client is not initialized")), w))
  /\ (forall cli, waCli = Some cli -> IsConnected cli = false ->
      ValidateJidWithLogin accountValidation waCli jid w
      = (Panic (panicValue ErrNotConnected), w))
  /\ (forall cli, waCli = Some cli -> IsConnected cli = true ->
      IsLoggedIn cli = false ->
      ValidateJidWithLogin accountValidation waCli jid w
      = (Panic (panicValue ErrNotLoggedIn), w)).
Proof.
  unfold ValidateJidWithLogin, MustLogin. munfold.
  split; [|split; [|split]].
  - intros r w'. destruct waCli as [cli|]; [|discriminate].
    destruct (IsConnected cli) eqn:Hc; [|discriminate].
    destruct (IsLoggedIn cli) eqn:Hl; [|discriminate].
    intros _. exists cli. auto.
  - now intros ->.
  - intros cli -> ->. reflexivity.
  - intros cli -> -> ->. reflexivity.
Qed.

Lemma ValidateJidWithLogin_needs_login_witness :
  ValidateJidWithLogin (L := sampleLib) true None "6281234567890" world0
  = (Panic "InternalServerError: Whatsapp client is not initialized",
     world0)
  /\ ValidateJidWithLogin (L := sampleLib) true
       (Some (mkClient false false (fun _ => Ok []))) "6281234567890" world0
     = (Panic "ErrNotConnected", world0).
Proof.
  split.
  - apply (proj1 (proj2 (ValidateJidWithLogin_needs_login
                           (L := sampleLib) true None "6281234567890"
                           world0))).
    reflexivity.
  - apply (proj1 (proj2 (proj2 (ValidateJidWithLogin_needs_login
                                  (L := sampleLib) true
                                  (Some (mkClient false false
                                           (fun _ => Ok [])))
                                  "6281234567890" world0)))
             (mkClient false false (fun _ => Ok []))); reflexivity.
Defined.

(** The two suffixes of [SanitizePhone] and the test of
    [IsOnWhatsapp]. *)
Lemma sanitized_suffix_lookup (p : string) :
  p <> "" -> Contains p "@" = false ->
  Contains (p +:+ WhatsappTypeUser) "@s.whatsapp.net" = true
  /\ Contains (p +:+ WhatsappTypeGroup) "@s.whatsapp.net" = false.
Proof.
  intros _ Hat. split.
  - now apply Contains_append_r.
  - now rewrite (Contains_after_no_at p _ "s.whatsapp.net" Hat).
Qed.

(** X16.  [IsOnWhatsapp] asks the client only about an address that
    contains ["@s.whatsapp.net"]: any other address counts as being on
    WhatsApp, whatever the client, even none.  So of the addresses that
    [SanitizePhone] makes from a non-empty phone without ['@'], a group
    address (more than 15 bytes) is never looked up, and a user address is
    on WhatsApp exactly when every response of the lookup says so, which
    an empty answer does. *)
Theorem IsOnWhatsapp_asks_only_about_users (waCli : option waClient)
    (jid : string) (w : World) :
  (Contains jid "@s.whatsapp.net" = false ->
   IsOnWhatsapp waCli jid w = (Done true, w))
  /\ (forall p, p <> "" -> Contains p "@" = false ->
        SanitizePhone (Some p) = Some jid ->
        if len p <=? 15 then
          forall cli data,
            waCli = Some cli -> IsOnWhatsApp cli [jid] = Ok data ->
            IsOnWhatsapp waCli jid w
            = (Done (forallb (fun IsIn => IsIn) data), w)
        else IsOnWhatsapp waCli jid w = (Done true, w)).
Proof.
  unfold IsOnWhatsapp. split; [now intros ->|].
  intros p Hne Hat Hs.
  destruct (sanitized_suffix_lookup p Hne Hat) as [Hu Hg].
  unfold SanitizePhone in Hs. rewrite Hat in Hs.
  replace (0 <? len p) with true in Hs
    by (symmetry; apply Z.ltb_lt; unfold len; destruct p;
        [congruence|simpl; lia]).
  simpl in Hs. destruct (len p <=? 15); injection Hs as <-.
  - intros cli data -> ->. now rewrite Hu.
  - now rewrite Hg.
Qed.

Lemma IsOnWhatsapp_asks_only_about_users_witness :
  IsOnWhatsapp None "120363041234567890@g.us" world0 = (Done true, world0)
  /\ IsOnWhatsapp (Some sampleClient) "620000000000@s.whatsapp.net" world0
     = (Done false, world0).
Proof.
  split.
  - apply (proj1 (IsOnWhatsapp_asks_only_about_users
                    None "120363041234567890@g.us" world0)).
    reflexivity.
  - apply (proj2 (IsOnWhatsapp_asks_only_about_users
                    (Some sampleClient) "620000000000@s.whatsapp.net"
                    world0)
             "620000000000" ltac:(discriminate) eq_refl eq_refl
             sampleClient [false]); reflexivity.
Defined.

(** X17.  For a client that is connected and logged in,
    [ValidateJidWithLogin] refuses an address exactly when account
    validation is on, the address contains ["@s.whatsapp.net"] and some
    response of the lookup says it is not on WhatsApp: it then returns the
    zero JID and an [InvalidJID] error naming the address, without parsing
    it.  In every other case without a lookup error it does what
    [ParseJID] does on the address, with the same result, error, panic
    and printed line. *)
Theorem ValidateJidWithLogin_result {L : Lib} (accountValidation : bool)
    (cli : waClient) (jid : string) (w : World) :
  IsConnected cli = true -> IsLoggedIn cli = true ->
  let asked := accountValidation && Contains jid "@s.whatsapp.net" in
  (forall data,
     asked = true -> IsOnWhatsApp cli [jid] = Ok data ->
     forallb (fun IsIn => IsIn) data = false ->
     ValidateJidWithLogin accountValidation (Some cli) jid w
     = (Done (mkJID "" 0 0 0 "",
              Some (InvalidJID ("Phone " +:+ jid +:+ " is not on whatsapp"))),
        w))
  /\ ((asked = false
       \/ exists data, IsOnWhatsApp cli [jid] = Ok data
                       /\ forallb (fun IsIn => IsIn) data = true) ->
      ValidateJidWithLogin accountValidation (Some cli) jid w
      = match ParseJID jid w with
        | (Done r, w') => (Done (fst r, FromParseJID <$> snd r), w')
        | (Panic msg, w') => (Panic msg, w')
        | (Exit code, w') => (Exit code, w')
        end).
Proof.
  intros Hc Hl. cbv zeta.
  unfold ValidateJidWithLogin, MustLogin, IsOnWhatsapp. munfold.
  rewrite Hc, Hl. simpl. split.
  - intros data Hasked Hdata Hnot.
    apply andb_prop in Hasked as [-> ->]. rewrite Hdata, Hnot. reflexivity.
  - intros [Hasked | (data & Hdata & Hall)].
    + destruct accountValidation; simpl in Hasked.
      * rewrite Hasked. simpl. destruct (ParseJID jid w) as [[r|m|c] w'];
          reflexivity.
      * destruct (ParseJID jid w) as [[r|m|c] w']; reflexivity.
    + destruct accountValidation.
      * destruct (Contains jid "@s.whatsapp.net").
        -- rewrite Hdata, Hall. simpl.
           destruct (ParseJID jid w) as [[r|m|c] w']; reflexivity.
        -- simpl. destruct (ParseJID jid w) as [[r|m|c] w']; reflexivity.
      * destruct (ParseJID jid w) as [[r|m|c] w']; reflexivity.
Qed.

Lemma ValidateJidWithLogin_result_witness :
  ValidateJidWithLogin (L := sampleLib) true (Some sampleClient)
    "620000000000@s.whatsapp.net" world0
  = (Done (mkJID "" 0 0 0 "",
           Some (InvalidJID
                   "Phone 620000000000@s.whatsapp.net is not on whatsapp")),
     world0)
  /\ ValidateJidWithLogin (L := sampleLib) true (Some sampleClient) ""
       world0
     = (Panic "index out of range [0] with length 0", world0).
Proof.
  split.
  - apply (proj1 (ValidateJidWithLogin_result (L := sampleLib) true
                    sampleClient "620000000000@s.whatsapp.net" world0
                    eq_refl eq_refl) [false]); reflexivity.
  - rewrite (proj2 (ValidateJidWithLogin_result (L := sampleLib) true
                      sampleClient "" world0 eq_refl eq_refl)).
    + reflexivity.
    + left. reflexivity.
Defined.

(* ===================================================================== *)
(** * A message that is forwarded                                         *)
(* ===================================================================== *)

Section Forwarded.
Context {L : Lib} {C : Config} {E : Env}.

Lemma extractAll_no_media (evt : evMessage) (body : gmap string Value)
    (w : World) :
  GetImageMessage (Message evt) = None ->
  GetStickerMessage (Message evt) = None ->
  GetVideoMessage (Message evt) = None ->
  GetAudioMessage (Message evt) = None ->
  GetDocumentMessage (Message evt) = None ->
  extractAll evt body w = (Done (inr body), w).
Proof.
  intros H1 H2 H3 H4 H5. unfold extractAll. cbv zeta.
  rewrite H1, H2, H3, H4, H5. reflexivity.
Qed.

(** X18.  A message without attachments that passes the filters of the
    webhook (configured, no broadcast, not from the account itself) is
    forwarded, in a group chat as in a private one: if its body can be
    marshalled and the request can be built, [handler] sends exactly one
    request, the POST of the marshalled body of the message to the
    configured address. *)
Theorem handler_forwards_message (evt : evMessage) (w : World)
    (marshalled : bytes) :
  GetImageMessage (Message evt) = None ->
  GetStickerMessage (Message evt) = None ->
  GetVideoMessage (Message evt) = None ->
  GetAudioMessage (Message evt) = None ->
  GetDocumentMessage (Message evt) = None ->
  webhookGuard evt = true ->
  json_Marshal (webhookBody evt) = Ok marshalled ->
  http_NewRequest_err "POST" WhatsappWebhook = None ->
  exists res,
    List.filter isHttpDo (events_of (handler (EvtMessage evt)) w)
    = [EvHttpDo 10 (webhookRequest marshalled) res]
    /\ Method (webhookRequest marshalled) = "POST"
    /\ URL (webhookRequest marshalled) = WhatsappWebhook
    /\ Body (webhookRequest marshalled) = marshalled.
Proof.
  intros H1 H2 H3 H4 H5 Hg Hm Hr.
  unfold events_of, handler. munfold.
  set (w1 := emit _ w).
  assert (Himg : downloadImage evt w1 = (Done tt, w1))
    by (unfold downloadImage; now rewrite H1).
  rewrite Himg, autoReply_run.
  set (reply := if autoReplyGuard evt then _ else _).
  assert (Kr : List.filter isHttpDo reply = [])
    by (subst reply; destruct (autoReplyGuard evt); reflexivity).
  unfold forwardMessage, forwardToWebhook. rewrite Hg. munfold.
  rewrite extractAll_no_media by assumption.
  destruct (postBody_run (webhookBody evt)
              (emit (EvLog logrus LInfo "Forwarding event to webhook:")
                    (emits reply w1)))
    as (posts & r & Hp & Ho).
  rewrite Hp. unfold postOutcome in Ho. rewrite Hm, Hr in Ho.
  destruct Ho as (res & -> & ->).
  exists res. split; [|repeat split].
  subst w1. destruct res as [resp|err];
    rewrite !emit_emits, !emits_emits; cbn [snd emits trace];
    rewrite events_since_app, !List.filter_app, Kr; reflexivity.
Qed.

End Forwarded.

Lemma handler_forwards_message_witness :
  exists res,
    List.filter isHttpDo
      (events_of (handler (L := sampleLib) (C := sampleConfig)
                    (E := sampleEnv 200) (EvtMessage groupTextEvent))
                 world0)
    = [EvHttpDo 10 (webhookRequest (C := sampleConfig) []) res].
Proof.
  destruct (handler_forwards_message (L := sampleLib) (C := sampleConfig)
              (E := sampleEnv 200) groupTextEvent world0 []
              eq_refl eq_refl eq_refl eq_refl eq_refl eq_refl eq_refl
              eq_refl) as (res & Hres & _).
  exists res. exact Hres.
Defined.
